(** * node-cielo: the connection and state-synchronisation layer

  A shallow embedding of [Cielo.js]: the [CieloHVAC] device record, the
  [CieloAPIConnection] connection manager, its WebSocket message handler,
  the command codec ([#buildCommand], [#buildCommandPayload]) and
  [sendCommand], followed by the properties the design document states
  about them.

  JavaScript objects mutated in place become records threaded through
  the functions; a function that can throw returns a [completion]; a
  function that returns a promise returns the state in which the promise
  ends up ([promise]); caller-supplied callbacks and the transport are
  the environment: an invocation of a callback is recorded as an [event]
  and the transport's reaction to a write is an input. *)

From Stdlib Require Import ZArith List String Bool Lia.
Import ListNotations.

Local Open Scope string_scope.
Local Open Scope Z_scope.
Local Open Scope list_scope.

Set Warnings "-register-all".

(** ** JavaScript values *)

Module Js.

(** The values that travel through the library: what [JSON.parse] yields,
    plus [undefined].  Numbers are the integers among the JavaScript
    numbers; the library only stores and copies the numbers it receives,
    and computes with two of its own (the command counter and the
    timestamp), which are integers. *)
Inductive value : Type :=
| VUndefined
| VNull
| VBool (b : bool)
| VNum (n : Z)
| VStr (s : string)
| VArr (items : list value)
| VObj (fields : list (string * value)).

(** What a [throw] or a rejection carries: a built-in error, an
    [Error] made with [new Error(message)], or any value handed to
    [reject]. *)
Inductive exn : Type :=
| TypeError
| ReferenceError
| SyntaxError
| Error (message : string)
| Thrown (reason : value).

Inductive completion (A : Type) : Type :=
| Normal (a : A)
| Throw (e : exn).
Arguments Normal {A} a.
Arguments Throw {A} e.

Definition bind {A B : Type} (c : completion A) (k : A -> completion B)
  : completion B :=
  match c with
  | Normal a => k a
  | Throw e => Throw e
  end.

(** The state of a promise once the synchronous part of its executor and
    the environment's reaction have run. *)
Inductive promise : Type :=
| Resolved
| Rejected (e : exn)
| Pending.

(** [ToBoolean]. *)
Definition truthy (v : value) : bool :=
  match v with
  | VUndefined | VNull => false
  | VBool b => b
  | VNum n => negb (n =? 0)
  | VStr s => negb (String.eqb s "")
  | VArr _ | VObj _ => true
  end.

Definition nullish (v : value) : bool :=
  match v with
  | VUndefined | VNull => true
  | _ => false
  end.

Definition typeof (v : value) : string :=
  match v with
  | VUndefined => "undefined"
  | VNull => "object"
  | VBool _ => "boolean"
  | VNum _ => "number"
  | VStr _ => "string"
  | VArr _ | VObj _ => "object"
  end.

(** [v === s] for a string [s]. *)
Definition strict_eq_string (v : value) (s : string) : bool :=
  match v with
  | VStr t => String.eqb t s
  | _ => false
  end.

Fixpoint assoc (k : string) (fields : list (string * value)) : value :=
  match fields with
  | [] => VUndefined
  | (k', v) :: rest => if String.eqb k k' then v else assoc k rest
  end.

(** [v.k] for the property names the library reads (none of them is
    [length] or an index, so primitives and arrays answer [undefined]);
    reading a property of [undefined] or [null] throws a TypeError. *)
Definition get (v : value) (k : string) : completion value :=
  match v with
  | VUndefined | VNull => Throw TypeError
  | VObj fields => Normal (assoc k fields)
  | VBool _ | VNum _ | VStr _ | VArr _ => Normal VUndefined
  end.

(** [s.length] of a string value. *)
Definition str_length (v : value) : Z :=
  match v with
  | VStr s => Z.of_nat (String.length s)
  | _ => 0
  end.

(** [Math.round(ms / 1000)] for an integer number of milliseconds: the
    nearest integer, a tie going up. *)
Definition round_div_1000 (ms : Z) : Z := (ms + 500) / 1000.

End Js.

Import Js.

Declare Scope js_scope.
Notation "x <- c ;; k" := (Js.bind c (fun x => k))
  (at level 61, c at next level, right associativity) : js_scope.
Local Open Scope js_scope.

(** ** Constants *)

Definition DEFAULT_POWER : value := VStr "off".
Definition DEFAULT_MODE : value := VStr "auto".
Definition DEFAULT_FAN : value := VStr "auto".
Definition DEFAULT_TEMPERATURE : value := VNum 75.

(** ** class CieloHVAC *)

Module CieloHVAC.

Record t : Type := mk {
  power : value;
  temperature : value;
  mode : value;
  fanSpeed : value;
  roomTemperature : value;
  deviceName : value;
  macAddress : string;
  applianceID : value;
  fwVersion : value
}.

(** [new CieloHVAC(macAddress, deviceName, applianceID, fwVersion)]: the
    field initialisers, then the constructor's four assignments. *)
Definition new (mac : string) (name appliance fw : value) : t :=
  {| power := DEFAULT_POWER;
     temperature := DEFAULT_TEMPERATURE;
     mode := DEFAULT_MODE;
     fanSpeed := DEFAULT_FAN;
     roomTemperature := DEFAULT_TEMPERATURE;
     deviceName := name;
     macAddress := mac;
     applianceID := appliance;
     fwVersion := fw |}.

Definition getPower (h : t) : value := power h.
Definition getTemperature (h : t) : value := temperature h.
Definition getMode (h : t) : value := mode h.
Definition getFanSpeed (h : t) : value := fanSpeed h.
Definition getRoomTemperature (h : t) : value := roomTemperature h.
Definition getMacAddress (h : t) : string := macAddress h.
Definition getApplianceID (h : t) : value := applianceID h.
Definition getFwVersion (h : t) : value := fwVersion h.
Definition getDeviceName (h : t) : value := deviceName h.

Definition updateState (h : t) (p temp m fan : value) : t :=
  {| power := p;
     temperature := temp;
     mode := m;
     fanSpeed := fan;
     roomTemperature := roomTemperature h;
     deviceName := deviceName h;
     macAddress := macAddress h;
     applianceID := applianceID h;
     fwVersion := fwVersion h |}.

Definition updateRoomTemperature (h : t) (room : value) : t :=
  {| power := power h;
     temperature := temperature h;
     mode := mode h;
     fanSpeed := fanSpeed h;
     roomTemperature := room;
     deviceName := deviceName h;
     macAddress := macAddress h;
     applianceID := applianceID h;
     fwVersion := fwVersion h |}.

End CieloHVAC.

(** ** class CieloAPIConnection *)

Module CieloAPIConnection.

Import CieloHVAC.

(** A constructor argument: a function, or left out. *)
Inductive callback : Type :=
| CbUndefined
| CbFunction.

(** Calls made to the caller's callbacks, in order. *)
Inductive event : Type :=
| CommandCallback (status : value)
| TemperatureCallback (roomTemp : value)
| ErrorCallback (e : exn).

(** The socket made by [new WebSocket(connectUrl, connectPayload)]: the
    two query parameters of the URL and the two fields of the payload. *)
Record WebSocket : Type := {
  url_sessionId : value;
  url_token : value;
  payload_sessionId : value;
  payload_token : value
}.

Record t : Type := mk {
  sessionID : value;
  userID : value;
  accessToken : value;
  agent : value;
  commandCount : Z;
  ws : option WebSocket;
  hvacs : list CieloHVAC.t;
  commandCallback : callback;
  temperatureCallback : callback;
  errorCallback : callback
}.

Definition set_hvacs (c : t) (l : list CieloHVAC.t) : t :=
  mk (sessionID c) (userID c) (accessToken c) (agent c) (commandCount c)
     (ws c) l (commandCallback c) (temperatureCallback c) (errorCallback c).

Definition set_commandCount (c : t) (n : Z) : t :=
  mk (sessionID c) (userID c) (accessToken c) (agent c) n
     (ws c) (hvacs c) (commandCallback c) (temperatureCallback c)
     (errorCallback c).

Definition set_ws (c : t) (w : option WebSocket) : t :=
  mk (sessionID c) (userID c) (accessToken c) (agent c) (commandCount c)
     w (hvacs c) (commandCallback c) (temperatureCallback c)
     (errorCallback c).

Definition set_credentials (c : t) (sid uid token : value) : t :=
  mk sid uid token (agent c) (commandCount c)
     (ws c) (hvacs c) (commandCallback c) (temperatureCallback c)
     (errorCallback c).

(** [new CieloAPIConnection(commandCallback, temperatureCallback,
    errorCallback)]. *)
Definition new (commandCb temperatureCb errorCb : callback) : t :=
  {| sessionID := VUndefined;
     userID := VUndefined;
     accessToken := VUndefined;
     agent := VUndefined;
     commandCount := 0;
     ws := None;
     hvacs := [];
     commandCallback := commandCb;
     temperatureCallback := temperatureCb;
     errorCallback := errorCb |}.

(** What one run of an event handler leaves behind. *)
Record step : Type := mk_step {
  state : t;
  outcome : completion unit;
  events : list event
}.

(** *** establishConnection

    [loginData] is what [#getAccessTokenAndSessionId] resolves with:
    [responseJSON.data.user], or [undefined] when the request failed. *)
Definition establishConnection (c : t) (loginData : value) : t * promise :=
  match get loginData "sessionId" with
  | Throw e => (c, Rejected e)
  | Normal sid =>
      match get loginData "userId" with
      | Throw e => (set_credentials c sid (userID c) (accessToken c),
                    Rejected e)
      | Normal uid =>
          match get loginData "accessToken" with
          | Throw e => (set_credentials c sid uid (accessToken c),
                        Rejected e)
          | Normal token => (set_credentials c sid uid token, Resolved)
          end
      end
  end.

(** *** The message handler of #connect *)

(** [JSON.parse(message)]: the parsed value, or a SyntaxError. *)
Inductive parsed : Type :=
| ParseError
| Parsed (data : value).

(** The [if] that guards the handler's body. *)
Definition accepted (data : value) : completion bool :=
  mt <- get data "message_type" ;;
  if truthy mt && String.eqb (typeof mt) "string" && (0 <? str_length mt)
  then
    act <- get data "action" ;;
    Normal (truthy act && String.eqb (typeof act) "object")
  else Normal false.

(** [this.hvacs.forEach((hvac, index) => ...)] with a body that updates
    [this.hvacs[index]] in place: records visited before a throw keep
    their update. *)
Fixpoint forEach (body : CieloHVAC.t -> completion CieloHVAC.t)
                 (l : list CieloHVAC.t)
  : list CieloHVAC.t * completion unit :=
  match l with
  | [] => ([], Normal tt)
  | hvac :: rest =>
      match body hvac with
      | Throw e => (hvac :: rest, Throw e)
      | Normal hvac' =>
          let (rest', r) := forEach body rest in (hvac' :: rest', r)
      end
  end.

Definition web_body (status thisMac : value) (hvac : CieloHVAC.t)
  : completion CieloHVAC.t :=
  if strict_eq_string thisMac (getMacAddress hvac) then
    p <- get status "power" ;;
    temp <- get status "temp" ;;
    m <- get status "mode" ;;
    fan <- get status "fanspeed" ;;
    Normal (updateState hvac p temp m fan)
  else Normal hvac.

Definition heartbeat_body (roomTemp thisMac : value) (hvac : CieloHVAC.t)
  : completion CieloHVAC.t :=
  if strict_eq_string thisMac (getMacAddress hvac) then
    Normal (updateRoomTemperature hvac roomTemp)
  else Normal hvac.

(** [if (cb !== undefined) cb(arg)]. *)
Definition notify (cb : callback) (ev : event) : list event :=
  match cb with
  | CbUndefined => []
  | CbFunction => [ev]
  end.

(** The four reads that precede the [switch]. *)
Definition read_fields (data : value)
  : completion (value * value * value * value) :=
  type <- get data "mid" ;;
  status <- get data "action" ;;
  env <- get data "lat_env_var" ;;
  roomTemp <- get env "temperature" ;;
  thisMac <- get data "mac_address" ;;
  Normal (type, status, roomTemp, thisMac).

Definition dispatch (c : t) (type status roomTemp thisMac : value) : step :=
  if strict_eq_string type "WEB" then
    let (l, r) := forEach (web_body status thisMac) (hvacs c) in
    match r with
    | Throw e => mk_step (set_hvacs c l) (Throw e) []
    | Normal _ =>
        mk_step (set_hvacs c l) (Normal tt)
                (notify (commandCallback c) (CommandCallback status))
    end
  else if strict_eq_string type "Heartbeat" then
    let (l, r) := forEach (heartbeat_body roomTemp thisMac) (hvacs c) in
    match r with
    | Throw e => mk_step (set_hvacs c l) (Throw e) []
    | Normal _ =>
        mk_step (set_hvacs c l) (Normal tt)
                (notify (temperatureCallback c)
                        (TemperatureCallback roomTemp))
    end
  else mk_step c (Normal tt) [].

(** [this.#ws.on('message', (message) => ...)]. *)
Definition on_message (c : t) (message : parsed) : step :=
  match message with
  | ParseError => mk_step c (Throw SyntaxError) []
  | Parsed data =>
      match accepted data with
      | Throw e => mk_step c (Throw e) []
      | Normal false => mk_step c (Normal tt) []
      | Normal true =>
          match read_fields data with
          | Throw e => mk_step c (Throw e) []
          | Normal (type, status, roomTemp, thisMac) =>
              dispatch c type status roomTemp thisMac
          end
      end
  end.

(** [this.#ws.on('close', ...)] and [this.#ws.on('error', ...)]: the
    error callback is called without a test; calling [undefined]
    throws. *)
Definition call_errorCallback (c : t) (e : exn) : step :=
  match errorCallback c with
  | CbUndefined => mk_step c (Throw TypeError) []
  | CbFunction => mk_step c (Normal tt) [ErrorCallback e]
  end.

Definition on_close (c : t) : step :=
  call_errorCallback c (Error "Connection Closed.").

Definition on_error (c : t) (err : exn) : step :=
  call_errorCallback c err.

(** *** subscribeToHVACs *)

(** [macAddresses.includes(v)] for an array of strings. *)
Definition includes (macAddresses : list string) (v : value) : bool :=
  existsb (strict_eq_string v) macAddresses.

(** The body of the loop over [deviceInfo.data.listDevices]: the record to
    push, if the device is one of those asked for. *)
Definition extract (macAddresses : list string) (device : value)
  : completion (option CieloHVAC.t) :=
  mac <- get device "macAddress" ;;
  match mac with
  | VStr s =>
      if includes macAddresses mac then
        name <- get device "deviceName" ;;
        appliance <- get device "applianceId" ;;
        fw <- get device "fwVersion" ;;
        let hvac := CieloHVAC.new s name appliance fw in
        latestAction <- get device "latestAction" ;;
        p <- get latestAction "power" ;;
        temp <- get latestAction "temp" ;;
        m <- get latestAction "mode" ;;
        fan <- get latestAction "fanspeed" ;;
        let hvac := updateState hvac p temp m fan in
        latEnv <- get device "latEnv" ;;
        room <- get latEnv "temp" ;;
        Normal (Some (updateRoomTemperature hvac room))
      else Normal None
  | _ => Normal None
  end.

(** [for (const device of ...) { ... this.hvacs.push(hvac) }]: records
    pushed before a throw stay in the array. *)
Fixpoint extract_all (macAddresses : list string) (devices : list value)
                     (acc : list CieloHVAC.t)
  : list CieloHVAC.t * completion unit :=
  match devices with
  | [] => (acc, Normal tt)
  | device :: rest =>
      match extract macAddresses device with
      | Throw e => (acc, Throw e)
      | Normal None => extract_all macAddresses rest acc
      | Normal (Some hvac) => extract_all macAddresses rest (acc ++ [hvac])
      end
  end.

Fixpoint characters (s : string) : list value :=
  match s with
  | EmptyString => []
  | String ch rest => VStr (String ch EmptyString) :: characters rest
  end.

(** What [for ... of] iterates over: the items of an array, the
    characters of a string; other values are not iterable. *)
Definition iterate (v : value) : completion (list value) :=
  match v with
  | VArr items => Normal items
  | VStr s => Normal (characters s)
  | _ => Throw TypeError
  end.

(** [#connect]: the socket is made and stored, the handlers are attached,
    and the promise returned resolves when the socket opens ([opens]);
    nothing rejects it. *)
Definition connect (c : t) (opens : bool) : t * promise :=
  (set_ws c (Some {| url_sessionId := sessionID c;
                     url_token := accessToken c;
                     payload_sessionId := agent c;
                     payload_token := accessToken c |}),
   if opens then Resolved else Pending).

(** [deviceInfo] is what [#getDeviceInfo] resolves with: the decoded
    response, or [undefined] when the request failed. *)
Definition subscribeToHVACs (c : t) (macAddresses : list string)
                            (deviceInfo : value) (opens : bool)
  : t * promise :=
  let c := set_hvacs c [] in
  let c := set_commandCount c 0 in
  match get deviceInfo "error" with
  | Throw e => (c, Rejected e)
  | Normal err =>
      if truthy err then (c, Rejected (Thrown err))
      else
        match (data <- get deviceInfo "data" ;;
               listDevices <- get data "listDevices" ;;
               iterate listDevices) with
        | Throw e => (c, Rejected e)
        | Normal devices =>
            let (l, r) := extract_all macAddresses devices (hvacs c) in
            match r with
            | Throw e => (set_hvacs c l, Rejected e)
            | Normal _ => connect (set_hvacs c l) opens
            end
        end
  end.

(** *** The command codec *)

Definition buildCommand (temp power fanspeed mode : value) (isAction : bool)
                        (performedAction performedValue : value) : value :=
  VObj [ ("fanspeed", fanspeed);
         ("light", VStr "off");
         ("mode", if isAction && strict_eq_string performedAction "mode"
                  then performedValue else mode);
         ("oldPower", power);
         ("power", power);
         ("swing", VStr "auto/stop");
         ("temp", if isAction && strict_eq_string performedAction "temp"
                  then performedValue else temp);
         ("turbo", VStr "off") ].

(** [#buildCommandPayload]: the object handed to [JSON.stringify], and the
    connection with its counter moved on.  [now] is [Date.now()].  The
    local [commandCount] takes the counter's old value and is not read
    again. *)
Definition buildCommandPayload (c : t) (hvac : CieloHVAC.t)
                               (performedAction performedActionValue : value)
                               (now : Z) : value * t :=
  let commandCount := commandCount c in
  let c := set_commandCount c (commandCount + 1) in
  let deviceTypeVersion := VStr "BP01" in
  (VObj [ ("action", VStr "actionControl");
          ("actionSource", VStr "WEB");
          ("actionType", performedAction);
          ("actionValue", performedActionValue);
          ("actions", buildCommand (getTemperature hvac) (getPower hvac)
                                   (getFanSpeed hvac) (getMode hvac) true
                                   performedAction performedActionValue);
          ("applianceId", getApplianceID hvac);
          ("applianceType", VStr "AC");
          ("application_version", VStr "1.0.0");
          ("connection_source", VNum 0);
          ("deviceTypeVersion", deviceTypeVersion);
          ("fwVersion", getFwVersion hvac);
          ("macAddress", VStr (getMacAddress hvac));
          ("mid", sessionID c);
          ("token", accessToken c);
          ("ts", VNum (round_div_1000 now)) ],
   c).

(** *** sendCommand *)

(** The names bound where the callback of [sendCommand] runs: the
    module's own top-level declarations and the globals of Node.js it
    uses. *)
Definition module_scope : list string :=
  [ "querystring"; "fetch"; "WebSocket"; "API_HOST"; "API_HTTP_PROTOCOL";
    "PING_INTERVAL"; "DEFAULT_POWER"; "DEFAULT_MODE"; "DEFAULT_FAN";
    "DEFAULT_TEMPERATURE"; "CieloAPIConnection"; "CieloHVAC";
    "require"; "module"; "console"; "JSON"; "Math"; "Date"; "URL";
    "Promise"; "Error" ].

(** Reading an identifier: a name bound in the module, or a global that
    the host program has added ([globals]); any other name throws a
    ReferenceError. *)
Definition resolve (globals : list string) (name : string)
  : completion unit :=
  if existsb (String.eqb name) (module_scope ++ globals)
  then Normal tt else Throw ReferenceError.

(** When the transport calls the callback given to [send]: before [send]
    returns, or later from the event loop. *)
Inductive timing : Type :=
| Sync
| Async.

(** What the transport does with [send(payload, cb)]. *)
Inductive reaction : Type :=
| SendThrows (e : exn)
| SendCallback (when : timing) (error : value)
| SendSilent.

(** The callback given to [send]: the promise state it settles. *)
Definition send_callback (globals : list string) (error : value)
  : completion promise :=
  if truthy error then
    _ <- resolve globals "log" ;;
    Normal (Rejected (Thrown error))
  else Normal Resolved.

Record sent : Type := mk_sent {
  after : t;
  returned : promise;
  written : option value;
  escaped : option exn;
  notified : list event
}.

(** [sendCommand]: the connection afterwards, the state of the promise
    returned, the payload handed to the transport, an exception that
    leaves the callback uncaught, and the callbacks of the caller that
    were called.  [this.#ws.send] is read before the argument list is
    evaluated, so with no socket the payload is not built. *)
Definition sendCommand (c : t) (hvac : CieloHVAC.t)
                       (performedAction performedActionValue : value)
                       (now : Z) (globals : list string) (env : reaction)
  : sent :=
  match ws c with
  | None => mk_sent c (Rejected TypeError) None None []
  | Some _ =>
      let (payload, c) :=
        buildCommandPayload c hvac performedAction performedActionValue now in
      match env with
      | SendThrows e => mk_sent c (Rejected e) None None []
      | SendSilent => mk_sent c Pending (Some payload) None []
      | SendCallback when error =>
          match send_callback globals error, when with
          | Normal p, _ => mk_sent c p (Some payload) None []
          | Throw e, Sync => mk_sent c (Rejected e) (Some payload) None []
          | Throw e, Async => mk_sent c Pending (Some payload) (Some e) []
          end
      end
  end.

(** [setMode], [setFanSpeed], [setTemperature], [powerOn] and [powerOff]
    of [CieloHVAC]. *)
Definition setMode (hvac : CieloHVAC.t) (mode : value) (api : t) :=
  sendCommand api hvac (VStr "mode") mode.
Definition setFanSpeed (hvac : CieloHVAC.t) (fanspeed : value) (api : t) :=
  sendCommand api hvac (VStr "fanspeed") fanspeed.
Definition setTemperature (hvac : CieloHVAC.t) (temperature : value)
                          (api : t) :=
  sendCommand api hvac (VStr "temp") temperature.
Definition powerOn (hvac : CieloHVAC.t) (api : t) :=
  sendCommand api hvac (VStr "power") (VStr "on").
Definition powerOff (hvac : CieloHVAC.t) (api : t) :=
  sendCommand api hvac (VStr "power") (VStr "off").

(** *** The two requests

    [response] is what [fetch(...).then((response) => response.json())]
    settles with: the decoded body, or nothing when the request or the
    decoding failed.  In both methods a failure anywhere in the chain ends
    in the [catch], which logs it and yields [undefined]. *)
Definition getAccessTokenAndSessionId (response : option value) : value :=
  match response with
  | None => VUndefined
  | Some responseJSON =>
      match (data <- get responseJSON "data" ;; get data "user") with
      | Normal initialLoginData => initialLoginData
      | Throw _ => VUndefined
      end
  end.


End CieloAPIConnection.

(** * Properties *)

Import CieloHVAC.
Import CieloAPIConnection.

(** ** Sample data *)

(** A subscribed unit that is switched on, cooling at 72. *)
Definition den : CieloHVAC.t :=
  CieloHVAC.updateRoomTemperature
    (CieloHVAC.updateState
       (CieloHVAC.new "AA:BB:CC:DD:EE:FF" (VStr "Den") (VNum 7) (VStr "2.4.1"))
       (VStr "on") (VStr "72") (VStr "cool") (VStr "low"))
    (VNum 74).

(** A connection that has logged in, with every callback supplied and no
    socket yet. *)
Definition logged_in : CieloAPIConnection.t :=
  fst (establishConnection
         (CieloAPIConnection.new CbFunction CbFunction CbFunction)
         (VObj [ ("sessionId", VStr "S-1"); ("userId", VStr "U-1");
                 ("accessToken", VStr "T-1") ])).

(** The answer of the backend listing the unit [den]. *)
Definition device_list : value :=
  VObj [ ("data",
          VObj [ ("listDevices",
                  VArr [ VObj [ ("macAddress", VStr "AA:BB:CC:DD:EE:FF");
                                ("deviceName", VStr "Den");
                                ("applianceId", VNum 7);
                                ("fwVersion", VStr "2.4.1");
                                ("latestAction",
                                 VObj [ ("power", VStr "on");
                                        ("temp", VStr "72");
                                        ("mode", VStr "cool");
                                        ("fanspeed", VStr "low") ]);
                                ("latEnv", VObj [ ("temp", VNum 74) ]) ] ]) ]) ].

(** The connection after a discovery of [den] whose socket opened. *)
Definition subscribed : CieloAPIConnection.t :=
  fst (subscribeToHVACs logged_in ["AA:BB:CC:DD:EE:FF"] device_list true).

Example subscribed_registry : hvacs subscribed = [den].
Proof. reflexivity. Qed.

Example subscribed_resolved :
  snd (subscribeToHVACs logged_in ["AA:BB:CC:DD:EE:FF"] device_list true)
  = Resolved.
Proof. reflexivity. Qed.

(** ** The command codec *)

(** The control vector of a payload: its [actions.power], [actions.temp],
    [actions.mode] and [actions.fanspeed]. *)
Definition control_vector (payload : value)
  : completion (value * value * value * value) :=
  actions <- get payload "actions" ;;
  p <- get actions "power" ;;
  temp <- get actions "temp" ;;
  m <- get actions "mode" ;;
  fan <- get actions "fanspeed" ;;
  Normal (p, temp, m, fan).

(** The control vector as the design document words it: the unit's current
    power, temperature, mode and fan speed, with the one field that
    [attribute] names replaced by [v]. *)
Definition overridden_vector (hvac : CieloHVAC.t) (attribute : string)
                             (v : value) : value * value * value * value :=
  (if String.eqb attribute "power" then v else getPower hvac,
   if String.eqb attribute "temp" then v else getTemperature hvac,
   if String.eqb attribute "mode" then v else getMode hvac,
   if String.eqb attribute "fanspeed" then v else getFanSpeed hvac).

(** For [mode] and [temp] the code builds the vector of the design
    document. *)
Lemma control_vector_mode (c : CieloAPIConnection.t) (hvac : CieloHVAC.t)
                          (v : value) (now : Z) :
  control_vector (fst (buildCommandPayload c hvac (VStr "mode") v now))
  = Normal (overridden_vector hvac "mode" v).
Proof. reflexivity. Qed.

Lemma control_vector_temp (c : CieloAPIConnection.t) (hvac : CieloHVAC.t)
                          (v : value) (now : Z) :
  control_vector (fst (buildCommandPayload c hvac (VStr "temp") v now))
  = Normal (overridden_vector hvac "temp" v).
Proof. reflexivity. Qed.

(** For [power] and [fanspeed] the vector is the unit's current state,
    whatever the value asked for. *)
Lemma control_vector_power (c : CieloAPIConnection.t) (hvac : CieloHVAC.t)
                           (v : value) (now : Z) :
  control_vector (fst (buildCommandPayload c hvac (VStr "power") v now))
  = Normal (getPower hvac, getTemperature hvac, getMode hvac,
            getFanSpeed hvac).
Proof. reflexivity. Qed.

Lemma control_vector_fanspeed (c : CieloAPIConnection.t) (hvac : CieloHVAC.t)
                              (v : value) (now : Z) :
  control_vector (fst (buildCommandPayload c hvac (VStr "fanspeed") v now))
  = Normal (getPower hvac, getTemperature hvac, getMode hvac,
            getFanSpeed hvac).
Proof. reflexivity. Qed.

(** C1 (the code departs from the claim).  Switching the unit [den] off, or
    setting its fan to high, builds a control vector that still carries the
    unit's current power "on" and fan speed "low": [#buildCommand] has an
    override for [mode] and for [temp] only, so the field named by
    [power] or [fanspeed] is not replaced by the given value. *)
Theorem C1_power_and_fanspeed_not_overridden :
  control_vector
    (fst (buildCommandPayload subscribed den (VStr "power") (VStr "off")
                              1700000000123))
  = Normal (VStr "on", VStr "72", VStr "cool", VStr "low")
  /\ overridden_vector den "power" (VStr "off")
     = (VStr "off", VStr "72", VStr "cool", VStr "low")
  /\ control_vector
       (fst (buildCommandPayload subscribed den (VStr "fanspeed")
                                 (VStr "high") 1700000000123))
     = Normal (VStr "on", VStr "72", VStr "cool", VStr "low")
  /\ overridden_vector den "fanspeed" (VStr "high")
     = (VStr "on", VStr "72", VStr "cool", VStr "high").
Proof. repeat split. Qed.

(** C9.  For every device, the payload built for ("temp", "68") has
    [actions.temp] equal to "68", [actions.power], [actions.mode] and
    [actions.fanspeed] equal to the device's current power, mode and fan
    speed, and [actions.oldPower] equal to the device's current power. *)
Theorem C9_temp_68_payload (c : CieloAPIConnection.t) (hvac : CieloHVAC.t)
                           (now : Z) :
  exists actions : value,
    get (fst (buildCommandPayload c hvac (VStr "temp") (VStr "68") now))
        "actions" = Normal actions
    /\ get actions "temp" = Normal (VStr "68")
    /\ get actions "power" = Normal (getPower hvac)
    /\ get actions "mode" = Normal (getMode hvac)
    /\ get actions "fanspeed" = Normal (getFanSpeed hvac)
    /\ get actions "oldPower" = Normal (getPower hvac).
Proof.
  eexists. split; [reflexivity|].
  repeat split.
Qed.

(** The timestamp is the time in seconds nearest to [now] milliseconds. *)
Lemma round_div_1000_nearest (now : Z) :
  1000 * round_div_1000 now - 500 <= now < 1000 * round_div_1000 now + 500.
Proof.
  unfold round_div_1000.
  pose proof (Z.div_mod (now + 500) 1000 ltac:(lia)) as Hdiv.
  pose proof (Z.mod_pos_bound (now + 500) 1000 ltac:(lia)) as Hmod.
  lia.
Qed.

(** The payload is built from the credentials, the unit and the clock; the
    counter takes no part in it. *)
Lemma payload_independent_of_counter (c : CieloAPIConnection.t)
    (hvac : CieloHVAC.t) (a v : value) (now n : Z) :
  fst (buildCommandPayload (set_commandCount c n) hvac a v now)
  = fst (buildCommandPayload c hvac a v now).
Proof. reflexivity. Qed.

(** The part of claim C4 about the sequence number: the counter's value can
    be read off every payload. *)
Definition payload_carries_counter : Prop :=
  exists read : value -> Z,
    forall (c : CieloAPIConnection.t) (hvac : CieloHVAC.t) (a v : value)
           (now : Z),
      read (fst (buildCommandPayload c hvac a v now)) = commandCount c.

(** C4, counterexample.  With the counter at 41 the payload for
    ("temp", "68") on [den] is the object below, in which the counter does
    not occur (the only numbers are the appliance id 7, the constant
    [connection_source] 0 and the timestamp); the counter is not something
    a payload carries. *)
Lemma C4_payload_without_counter :
  fst (buildCommandPayload (set_commandCount subscribed 41) den
                           (VStr "temp") (VStr "68") 1700000000123)
  = VObj [ ("action", VStr "actionControl");
           ("actionSource", VStr "WEB");
           ("actionType", VStr "temp");
           ("actionValue", VStr "68");
           ("actions",
            VObj [ ("fanspeed", VStr "low");
                   ("light", VStr "off");
                   ("mode", VStr "cool");
                   ("oldPower", VStr "on");
                   ("power", VStr "on");
                   ("swing", VStr "auto/stop");
                   ("temp", VStr "68");
                   ("turbo", VStr "off") ]);
           ("applianceId", VNum 7);
           ("applianceType", VStr "AC");
           ("application_version", VStr "1.0.0");
           ("connection_source", VNum 0);
           ("deviceTypeVersion", VStr "BP01");
           ("fwVersion", VStr "2.4.1");
           ("macAddress", VStr "AA:BB:CC:DD:EE:FF");
           ("mid", VStr "S-1");
           ("token", VStr "T-1");
           ("ts", VNum 1700000000) ]
  /\ ~ payload_carries_counter.
Proof.
  split; [reflexivity|].
  intros [read Hread].
  pose proof (Hread (set_commandCount subscribed 41) den
                    (VStr "temp") (VStr "68") 1700000000123) as H41.
  pose proof (Hread subscribed den
                    (VStr "temp") (VStr "68") 1700000000123) as H0.
  rewrite payload_independent_of_counter in H41.
  rewrite H0 in H41. discriminate H41.
Qed.

(** C4, amended.  Every payload built by [#buildCommandPayload] carries,
    beside the control vector, the session id, the access token, the
    target device identifier, the appliance identifier, the firmware
    version and a timestamp in seconds since the epoch; the command
    counter is moved on by one and is not part of the payload. *)
Theorem C4_payload_routing_metadata (c : CieloAPIConnection.t)
    (hvac : CieloHVAC.t) (a v : value) (now : Z) :
  let payload := fst (buildCommandPayload c hvac a v now) in
  get payload "actions"
  = Normal (buildCommand (getTemperature hvac) (getPower hvac)
                         (getFanSpeed hvac) (getMode hvac) true a v)
  /\ get payload "mid" = Normal (sessionID c)
  /\ get payload "token" = Normal (accessToken c)
  /\ get payload "macAddress" = Normal (VStr (getMacAddress hvac))
  /\ get payload "applianceId" = Normal (getApplianceID hvac)
  /\ get payload "fwVersion" = Normal (getFwVersion hvac)
  /\ (exists ts : Z,
        get payload "ts" = Normal (VNum ts)
        /\ 1000 * ts - 500 <= now < 1000 * ts + 500)
  /\ commandCount (snd (buildCommandPayload c hvac a v now))
     = commandCount c + 1
  /\ forall n : Z,
       fst (buildCommandPayload (set_commandCount c n) hvac a v now)
       = payload.
Proof.
  cbv zeta.
  repeat (split; [reflexivity|]).
  split.
  - exists (round_div_1000 now). split; [reflexivity|].
    apply round_div_1000_nearest.
  - split; [reflexivity|]. intro n. reflexivity.
Qed.

(** ** The command counter *)

Lemma sendCommand_counter (c : CieloAPIConnection.t) (hvac : CieloHVAC.t)
    (a v : value) (now : Z) (globals : list string) (env : reaction) :
  commandCount (after (sendCommand c hvac a v now globals env))
  = match ws c with
    | Some _ => commandCount c + 1
    | None => commandCount c
    end.
Proof.
  unfold sendCommand.
  destruct (ws c) as [sock|]; [|reflexivity].
  destruct env as [e|when error|]; cbn; try reflexivity.
  destruct (send_callback globals error) as [p|e]; [reflexivity|].
  destruct when; reflexivity.
Qed.

(** A discovery that gets as far as [#connect] leaves a socket and a
    counter at 0; only such a discovery resolves. *)
Lemma subscribeToHVACs_resolved (c : CieloAPIConnection.t)
    (macAddresses : list string) (deviceInfo : value) (opens : bool) :
  snd (subscribeToHVACs c macAddresses deviceInfo opens) = Resolved ->
  commandCount (fst (subscribeToHVACs c macAddresses deviceInfo opens)) = 0
  /\ ws (fst (subscribeToHVACs c macAddresses deviceInfo opens)) <> None.
Proof.
  unfold subscribeToHVACs.
  destruct (get deviceInfo "error") as [err|e]; [|discriminate].
  destruct (truthy err); [discriminate|].
  destruct (bind (get deviceInfo "data") _) as [devices|e]; [|discriminate].
  destruct (extract_all macAddresses devices _) as [l r].
  destruct r as [u|e]; [|discriminate].
  cbn. intros _. split; [reflexivity|discriminate].
Qed.

(** C6, counterexample.  A [powerOff] on a connection that has logged in
    but has no socket yet is a [sendCommand] call that leaves the counter
    where it was: the call fails on [this.#ws.send] before the payload is
    built. *)
Lemma C6_sendCommand_without_socket :
  let r := powerOff den logged_in 1700000000123 []
                    (SendCallback Async VUndefined) in
  commandCount logged_in = 0
  /\ commandCount (after r) = 0
  /\ returned r = Rejected TypeError.
Proof. repeat split. Qed.

(** C6, amended.  On a connection that has a socket (every connection on
    which a discovery has reached the channel set-up, so every one on which
    a discovery has succeeded) each [sendCommand] call moves the counter on
    by exactly 1, whatever the transport then does; and after every
    successful discovery the counter is 0 and the socket exists. *)
Theorem C6_counter_step_and_reset (c : CieloAPIConnection.t)
    (hvac : CieloHVAC.t) (a v : value) (now : Z) (globals : list string)
    (env : reaction) (macAddresses : list string) (deviceInfo : value)
    (opens : bool) :
  (ws c <> None ->
   commandCount (after (sendCommand c hvac a v now globals env))
   = commandCount c + 1)
  /\ (snd (subscribeToHVACs c macAddresses deviceInfo opens) = Resolved ->
      commandCount (fst (subscribeToHVACs c macAddresses deviceInfo opens))
      = 0
      /\ ws (fst (subscribeToHVACs c macAddresses deviceInfo opens))
         <> None).
Proof.
  split.
  - intro Hws. rewrite sendCommand_counter.
    destruct (ws c); [reflexivity|contradiction].
  - apply subscribeToHVACs_resolved.
Qed.

Lemma C6_counter_step_and_reset_witness :
  commandCount
    (after (sendCommand subscribed den (VStr "temp") (VStr "68")
                        1700000000123 [] (SendCallback Async VUndefined)))
  = commandCount subscribed + 1
  /\ commandCount
       (fst (subscribeToHVACs subscribed ["AA:BB:CC:DD:EE:FF"] device_list
                              true)) = 0.
Proof.
  pose proof (C6_counter_step_and_reset subscribed den (VStr "temp")
                (VStr "68") 1700000000123 [] (SendCallback Async VUndefined)
                ["AA:BB:CC:DD:EE:FF"] device_list true) as [Hstep Hreset].
  split.
  - apply Hstep. discriminate.
  - apply Hreset. reflexivity.
Defined.

(** ** Write errors *)

(** An error object as a transport hands it to the callback of [send]. *)
Definition write_error : value :=
  VObj [ ("message", VStr "write EPIPE") ].

(** With [log] bound by no one, a write error reported to the callback
    never reaches [reject]: reading [log] throws first. *)
Lemma sendCommand_write_error_log_unbound (c : CieloAPIConnection.t)
    (hvac : CieloHVAC.t) (a v : value) (now : Z) (when : timing)
    (error : value) :
  ws c <> None ->
  truthy error = true ->
  returned (sendCommand c hvac a v now [] (SendCallback when error))
  = match when with
    | Sync => Rejected ReferenceError
    | Async => Pending
    end.
Proof.
  intros Hws Herr. unfold sendCommand.
  destruct (ws c) as [sock|]; [|contradiction].
  cbn. unfold send_callback. rewrite Herr. cbn.
  destruct when; reflexivity.
Qed.

(** Had the host program bound a global [log], the error would be handed
    to [reject], and no callback of the caller would be called. *)
Lemma sendCommand_write_error_log_bound (c : CieloAPIConnection.t)
    (hvac : CieloHVAC.t) (a v : value) (now : Z) (when : timing)
    (error : value) :
  ws c <> None ->
  truthy error = true ->
  returned (sendCommand c hvac a v now ["log"] (SendCallback when error))
  = Rejected (Thrown error)
  /\ notified (sendCommand c hvac a v now ["log"] (SendCallback when error))
     = [].
Proof.
  intros Hws Herr. unfold sendCommand.
  destruct (ws c) as [sock|]; [|contradiction].
  cbn. unfold send_callback. rewrite Herr. cbn. split; reflexivity.
Qed.

(** C3 (the code departs from the claim).  On the subscribed connection,
    in a program that defines no global [log] (the module declares none),
    a [powerOff] whose write the transport reports as failed does not
    reject with that error: the callback throws a ReferenceError at
    [log.error(error)], before [reject(error)].  When the transport calls
    back later the promise stays pending and the ReferenceError leaves the
    callback uncaught; when it calls back within [send] the promise
    rejects with the ReferenceError.  The error callback is not called in
    either case. *)
Theorem C3_write_error_not_rejected :
  let later := powerOff den subscribed 1700000000123 []
                        (SendCallback Async write_error) in
  let within := powerOff den subscribed 1700000000123 []
                         (SendCallback Sync write_error) in
  truthy write_error = true
  /\ returned later = Pending
  /\ escaped later = Some ReferenceError
  /\ notified later = []
  /\ returned within = Rejected ReferenceError
  /\ notified within = []
  /\ returned later <> Rejected (Thrown write_error)
  /\ returned within <> Rejected (Thrown write_error).
Proof. cbv zeta. repeat split; discriminate. Qed.

(** ** Discovery *)

(** C7.  Whenever the backend's answer to the device-list request reports
    an error (its [error] field is set), the discovery call fails, the
    registry is left empty, and the rejection carries that error
    payload. *)
Theorem C7_discovery_backend_error (c : CieloAPIConnection.t)
    (macAddresses : list string) (deviceInfo err : value) (opens : bool) :
  get deviceInfo "error" = Normal err ->
  truthy err = true ->
  snd (subscribeToHVACs c macAddresses deviceInfo opens)
  = Rejected (Thrown err)
  /\ hvacs (fst (subscribeToHVACs c macAddresses deviceInfo opens)) = [].
Proof.
  intros Hget Htruthy. unfold subscribeToHVACs.
  rewrite Hget, Htruthy. split; reflexivity.
Qed.

(** An answer of the backend that reports an error. *)
Definition unauthorized : value :=
  VObj [ ("error", VObj [ ("message", VStr "Unauthorized") ]) ].

Lemma C7_discovery_backend_error_witness :
  hvacs subscribed = [den]
  /\ snd (subscribeToHVACs subscribed ["AA:BB:CC:DD:EE:FF"] unauthorized
                           true)
     = Rejected (Thrown (VObj [ ("message", VStr "Unauthorized") ]))
  /\ hvacs (fst (subscribeToHVACs subscribed ["AA:BB:CC:DD:EE:FF"]
                                  unauthorized true)) = [].
Proof.
  split; [reflexivity|].
  apply (C7_discovery_backend_error subscribed ["AA:BB:CC:DD:EE:FF"]
           unauthorized (VObj [ ("message", VStr "Unauthorized") ]) true).
  - reflexivity.
  - reflexivity.
Defined.

(** ** The message handler *)

(** The value of property [k] of a value that is neither [undefined] nor
    [null]. *)
Definition field (v : value) (k : string) : value :=
  match get v k with
  | Normal x => x
  | Throw _ => VUndefined
  end.

Lemma get_field (v : value) (k : string) :
  nullish v = false -> get v k = Normal (field v k).
Proof. destruct v; cbn; intro H; try discriminate H; reflexivity. Qed.

Lemma strict_eq_string_true (v : value) (s : string) :
  strict_eq_string v s = true -> v = VStr s.
Proof.
  destruct v; cbn; try discriminate.
  intro H. apply String.eqb_eq in H. now subst.
Qed.

(** What the two loop bodies do to one record. *)
Definition web_update (status thisMac : value) (hvac : CieloHVAC.t)
  : CieloHVAC.t :=
  if strict_eq_string thisMac (getMacAddress hvac)
  then updateState hvac (field status "power") (field status "temp")
                   (field status "mode") (field status "fanspeed")
  else hvac.

Definition heartbeat_update (roomTemp thisMac : value) (hvac : CieloHVAC.t)
  : CieloHVAC.t :=
  if strict_eq_string thisMac (getMacAddress hvac)
  then updateRoomTemperature hvac roomTemp
  else hvac.

Lemma forEach_web (status thisMac : value) (l : list CieloHVAC.t) :
  nullish status = false ->
  forEach (web_body status thisMac) l
  = (map (web_update status thisMac) l, Normal tt).
Proof.
  intro Hstatus. induction l as [|hvac rest IH]; [reflexivity|].
  cbn [forEach map]. rewrite IH.
  unfold web_body, web_update.
  destruct (strict_eq_string thisMac (getMacAddress hvac)); [|reflexivity].
  rewrite !(get_field status) by assumption. reflexivity.
Qed.

Lemma forEach_heartbeat (roomTemp thisMac : value) (l : list CieloHVAC.t) :
  forEach (heartbeat_body roomTemp thisMac) l
  = (map (heartbeat_update roomTemp thisMac) l, Normal tt).
Proof.
  induction l as [|hvac rest IH]; [reflexivity|].
  cbn [forEach map]. rewrite IH.
  unfold heartbeat_body, heartbeat_update.
  destruct (strict_eq_string thisMac (getMacAddress hvac)); reflexivity.
Qed.

Lemma map_no_match (f : CieloHVAC.t -> CieloHVAC.t) (thisMac : value)
                   (l : list CieloHVAC.t) :
  (forall hvac, strict_eq_string thisMac (getMacAddress hvac) = false ->
                f hvac = hvac) ->
  (forall hvac, In hvac l ->
                strict_eq_string thisMac (getMacAddress hvac) = false) ->
  map f l = l.
Proof.
  intros Hf Hl. induction l as [|hvac rest IH]; [reflexivity|].
  cbn. rewrite Hf by (apply Hl; now left).
  rewrite IH; [reflexivity|].
  intros h Hin. apply Hl. now right.
Qed.

(** A message that passes the guard is an object whose [message_type] is a
    non-empty string and whose [action] is an object or an array. *)
Lemma accepted_true (data : value) :
  accepted data = Normal true ->
  nullish data = false
  /\ nullish (field data "action") = false
  /\ exists s, field data "message_type" = VStr s /\ s <> "".
Proof.
  unfold accepted, field.
  destruct data as [| |b|n|s|items|fields]; cbn; try discriminate.
  destruct (assoc "message_type" fields) as [| |b|n|s|items|fs];
    cbn; try discriminate.
  - destruct b; cbn; discriminate.
  - destruct (negb (n =? 0)); cbn; discriminate.
  - destruct (String.eqb_spec s "") as [->|Hne]; cbn; [discriminate|].
    destruct (0 <? Z.of_nat (String.length s)); [|discriminate].
    destruct (assoc "action" fields); cbn; try discriminate;
      intros _; (split; [reflexivity|]); (split; [reflexivity|]);
      exists s; (split; [reflexivity|assumption]).
Qed.

(** How the handler treats a message that passes the guard and carries
    ambient-temperature data: it goes to the [switch] with the four values
    read from it. *)
Lemma on_message_accepted (c : CieloAPIConnection.t) (data : value) :
  accepted data = Normal true ->
  nullish (field data "lat_env_var") = false ->
  on_message c (Parsed data)
  = dispatch c (field data "mid") (field data "action")
             (field (field data "lat_env_var") "temperature")
             (field data "mac_address").
Proof.
  intros Hacc Henv.
  destruct (accepted_true data Hacc) as (Hdata & _ & _).
  unfold on_message. rewrite Hacc. unfold read_fields.
  rewrite !(get_field data) by assumption. cbn [bind].
  rewrite (get_field _ "temperature") by assumption. reflexivity.
Qed.

(** A message that passes the guard without ambient-temperature data makes
    the handler throw before the [switch]. *)
Lemma on_message_without_env (c : CieloAPIConnection.t) (data : value) :
  accepted data = Normal true ->
  nullish (field data "lat_env_var") = true ->
  on_message c (Parsed data) = mk_step c (Throw TypeError) [].
Proof.
  intros Hacc Henv.
  destruct (accepted_true data Hacc) as (Hdata & _ & _).
  unfold on_message. rewrite Hacc. unfold read_fields.
  rewrite !(get_field data) by assumption. cbn [bind].
  destruct (field data "lat_env_var"); cbn in Henv; try discriminate Henv;
    reflexivity.
Qed.

Lemma dispatch_web (c : CieloAPIConnection.t)
                   (status roomTemp thisMac : value) :
  nullish status = false ->
  dispatch c (VStr "WEB") status roomTemp thisMac
  = mk_step (set_hvacs c (map (web_update status thisMac) (hvacs c)))
            (Normal tt)
            (notify (commandCallback c) (CommandCallback status)).
Proof.
  intro Hstatus. unfold dispatch. cbn [strict_eq_string String.eqb].
  cbn. rewrite forEach_web by assumption. reflexivity.
Qed.

Lemma dispatch_heartbeat (c : CieloAPIConnection.t)
                         (status roomTemp thisMac : value) :
  dispatch c (VStr "Heartbeat") status roomTemp thisMac
  = mk_step (set_hvacs c (map (heartbeat_update roomTemp thisMac) (hvacs c)))
            (Normal tt)
            (notify (temperatureCallback c) (TemperatureCallback roomTemp)).
Proof.
  unfold dispatch. cbn. rewrite forEach_heartbeat. reflexivity.
Qed.

Lemma dispatch_other (c : CieloAPIConnection.t)
                     (type status roomTemp thisMac : value) :
  type <> VStr "WEB" -> type <> VStr "Heartbeat" ->
  dispatch c type status roomTemp thisMac = mk_step c (Normal tt) [].
Proof.
  intros Hweb Hbeat. unfold dispatch.
  destruct (strict_eq_string type "WEB") eqn:E1;
    [apply strict_eq_string_true in E1; contradiction|].
  destruct (strict_eq_string type "Heartbeat") eqn:E2;
    [apply strict_eq_string_true in E2; contradiction|].
  reflexivity.
Qed.

(** The registry after a message: untouched, or rewritten by one of the
    two loops. *)
Lemma hvacs_after_message (c : CieloAPIConnection.t) (data : value) :
  hvacs (state (on_message c (Parsed data))) = hvacs c
  \/ (field data "mid" = VStr "WEB" /\ nullish data = false
      /\ hvacs (state (on_message c (Parsed data)))
         = map (web_update (field data "action") (field data "mac_address"))
               (hvacs c))
  \/ (field data "mid" = VStr "Heartbeat" /\ nullish data = false
      /\ hvacs (state (on_message c (Parsed data)))
         = map (heartbeat_update
                  (field (field data "lat_env_var") "temperature")
                  (field data "mac_address"))
               (hvacs c)).
Proof.
  destruct (accepted data) as [[|]|e] eqn:Hacc.
  - destruct (accepted_true data Hacc) as (Hdata & Hact & _).
    destruct (nullish (field data "lat_env_var")) eqn:Henv.
    + left. rewrite on_message_without_env by assumption. reflexivity.
    + rewrite on_message_accepted by assumption.
      destruct (strict_eq_string (field data "mid") "WEB") eqn:E1.
      * apply strict_eq_string_true in E1. rewrite E1.
        right; left. rewrite dispatch_web by assumption. now repeat split.
      * destruct (strict_eq_string (field data "mid") "Heartbeat") eqn:E2.
        -- apply strict_eq_string_true in E2. rewrite E2.
           right; right. rewrite dispatch_heartbeat. now repeat split.
        -- left. unfold dispatch. rewrite E1, E2. reflexivity.
  - left. unfold on_message. rewrite Hacc. reflexivity.
  - left. unfold on_message. rewrite Hacc. reflexivity.
Qed.

Lemma accepted_throw (data : value) (e : exn) :
  accepted data = Throw e -> nullish data = true.
Proof.
  unfold accepted.
  destruct data as [| |b|n|s|items|fields]; cbn; try discriminate;
    try reflexivity.
  destruct (truthy _ && _ && _); discriminate.
Qed.

Lemma dispatch_outcome (c : CieloAPIConnection.t)
                       (type status roomTemp thisMac : value) :
  nullish status = false ->
  outcome (dispatch c type status roomTemp thisMac) = Normal tt.
Proof.
  intro Hstatus. unfold dispatch.
  rewrite forEach_web by assumption. rewrite forEach_heartbeat.
  destruct (strict_eq_string type "WEB"); [reflexivity|].
  destruct (strict_eq_string type "Heartbeat"); reflexivity.
Qed.

Lemma Forall2_map_self (R : CieloHVAC.t -> CieloHVAC.t -> Prop)
                       (f : CieloHVAC.t -> CieloHVAC.t)
                       (l : list CieloHVAC.t) :
  (forall hvac, R hvac (f hvac)) -> Forall2 R l (map f l).
Proof.
  intro HR. induction l as [|hvac rest IH]; cbn; constructor; auto.
Qed.

Lemma Forall2_self (R : CieloHVAC.t -> CieloHVAC.t -> Prop)
                   (l : list CieloHVAC.t) :
  (forall hvac, R hvac hvac) -> Forall2 R l l.
Proof.
  intro HR. induction l as [|hvac rest IH]; constructor; auto.
Qed.

(** *** Frame properties *)

(** Two states of a record that agree on power, mode, fan speed and
    setpoint temperature. *)
Definition same_state (hvac hvac' : CieloHVAC.t) : Prop :=
  getPower hvac' = getPower hvac
  /\ getMode hvac' = getMode hvac
  /\ getFanSpeed hvac' = getFanSpeed hvac
  /\ getTemperature hvac' = getTemperature hvac.

(** Two states of a record that agree on the room temperature. *)
Definition same_room (hvac hvac' : CieloHVAC.t) : Prop :=
  getRoomTemperature hvac' = getRoomTemperature hvac.

Lemma heartbeat_update_same_state (roomTemp thisMac : value)
                                  (hvac : CieloHVAC.t) :
  same_state hvac (heartbeat_update roomTemp thisMac hvac).
Proof.
  unfold heartbeat_update, same_state.
  destruct (strict_eq_string thisMac (getMacAddress hvac)); now repeat split.
Qed.

Lemma web_update_same_room (status thisMac : value) (hvac : CieloHVAC.t) :
  same_room hvac (web_update status thisMac hvac).
Proof.
  unfold web_update, same_room.
  destruct (strict_eq_string thisMac (getMacAddress hvac)); reflexivity.
Qed.

Lemma get_mid_field (data : value) (s : string) :
  get data "mid" = Normal (VStr s) -> field data "mid" = VStr s.
Proof. unfold field. now intros ->. Qed.

(** C5.  Whatever the handler does with an inbound message, one whose
    [mid] is "Heartbeat" leaves the power, mode, fan speed and setpoint
    temperature of every record as they were, and one whose [mid] is "WEB"
    leaves the room temperature of every record as it was: the registry
    after the message lines up record by record with the registry
    before. *)
Theorem C5_notification_frames (c : CieloAPIConnection.t) (data : value) :
  (get data "mid" = Normal (VStr "Heartbeat") ->
   Forall2 same_state (hvacs c)
           (hvacs (state (on_message c (Parsed data)))))
  /\ (get data "mid" = Normal (VStr "WEB") ->
      Forall2 same_room (hvacs c)
              (hvacs (state (on_message c (Parsed data))))).
Proof.
  split; intro Hmid; apply get_mid_field in Hmid;
    destruct (hvacs_after_message c data)
      as [Heq | [(Hweb & _ & Heq) | (Hbeat & _ & Heq)]];
    rewrite Heq.
  - apply Forall2_self. intro hvac. now repeat split.
  - rewrite Hweb in Hmid. discriminate Hmid.
  - apply Forall2_map_self. apply heartbeat_update_same_state.
  - apply Forall2_self. reflexivity.
  - apply Forall2_map_self. apply web_update_same_room.
  - rewrite Hbeat in Hmid. discriminate Hmid.
Qed.

(** A telemetry message and a state-change message for the unit [den]. *)
Definition heartbeat_for_den : value :=
  VObj [ ("message_type", VStr "StateUpdate");
         ("mid", VStr "Heartbeat");
         ("action", VObj [ ("power", VStr "off"); ("temp", VStr "70");
                           ("mode", VStr "auto"); ("fanspeed", VStr "auto") ]);
         ("lat_env_var", VObj [ ("temperature", VNum 80) ]);
         ("mac_address", VStr "AA:BB:CC:DD:EE:FF") ].

Definition state_change_for_den : value :=
  VObj [ ("message_type", VStr "StateUpdate");
         ("mid", VStr "WEB");
         ("action", VObj [ ("power", VStr "off"); ("temp", VStr "70");
                           ("mode", VStr "auto"); ("fanspeed", VStr "auto") ]);
         ("lat_env_var", VObj [ ("temperature", VNum 80) ]);
         ("mac_address", VStr "AA:BB:CC:DD:EE:FF") ].

Example heartbeat_for_den_applied :
  hvacs (state (on_message subscribed (Parsed heartbeat_for_den)))
  = [ updateRoomTemperature den (VNum 80) ].
Proof. reflexivity. Qed.

Example state_change_for_den_applied :
  hvacs (state (on_message subscribed (Parsed state_change_for_den)))
  = [ updateState den (VStr "off") (VStr "70") (VStr "auto") (VStr "auto") ].
Proof. reflexivity. Qed.

Lemma C5_notification_frames_witness :
  Forall2 same_state (hvacs subscribed)
          (hvacs (state (on_message subscribed (Parsed heartbeat_for_den))))
  /\ Forall2 same_room (hvacs subscribed)
             (hvacs (state (on_message subscribed
                                       (Parsed state_change_for_den)))).
Proof.
  split.
  - apply (proj1 (C5_notification_frames subscribed heartbeat_for_den)).
    reflexivity.
  - apply (proj2 (C5_notification_frames subscribed state_change_for_den)).
    reflexivity.
Defined.

(** *** Messages for a device that is not subscribed *)

(** The message's device identifier is the record's. *)
Definition matches (data : value) (hvac : CieloHVAC.t) : bool :=
  strict_eq_string (field data "mac_address") (getMacAddress hvac).

Lemma existsb_matches_false (data : value) (l : list CieloHVAC.t) :
  existsb (matches data) l = false ->
  forall hvac, In hvac l ->
    strict_eq_string (field data "mac_address") (getMacAddress hvac) = false.
Proof.
  intros Hex hvac Hin.
  destruct (strict_eq_string _ _) eqn:E; [|reflexivity].
  rewrite <- Hex. symmetry. apply existsb_exists. now exists hvac.
Qed.

(** A state-change message for a device that is not subscribed, without
    ambient-temperature data. *)
Definition stray_state_change : value :=
  VObj [ ("message_type", VStr "StateUpdate");
         ("mid", VStr "WEB");
         ("action", VObj [ ("power", VStr "off"); ("temp", VStr "70");
                           ("mode", VStr "auto"); ("fanspeed", VStr "auto") ]);
         ("mac_address", VStr "11:22:33:44:55:66") ].

(** C8, counterexample.  The message [stray_state_change] matches no
    record of the subscribed connection, and the handler throws a
    TypeError on it: it reads [data.lat_env_var.temperature] before it
    looks at the device identifier, and the message has no
    [lat_env_var]. *)
Lemma C8_stray_message_raises :
  existsb (matches stray_state_change) (hvacs subscribed) = false
  /\ on_message subscribed (Parsed stray_state_change)
     = mk_step subscribed (Throw TypeError) [].
Proof. split; reflexivity. Qed.

(** C8, amended.  An inbound message whose device identifier matches no
    record of the registry leaves the registry as it was; and when the
    message carries ambient-temperature data ([lat_env_var] neither
    missing nor null), the handler raises no error on it. *)
Theorem C8_no_match_no_mutation (c : CieloAPIConnection.t) (data : value) :
  existsb (matches data) (hvacs c) = false ->
  hvacs (state (on_message c (Parsed data))) = hvacs c
  /\ (nullish (field data "lat_env_var") = false ->
      outcome (on_message c (Parsed data)) = Normal tt).
Proof.
  intro Hnone.
  pose proof (existsb_matches_false data (hvacs c) Hnone) as Hmac.
  split.
  - destruct (hvacs_after_message c data)
      as [Heq | [(_ & _ & Heq) | (_ & _ & Heq)]]; rewrite Heq;
      [reflexivity| |].
    + apply (map_no_match _ (field data "mac_address")); [|assumption].
      intros hvac E. unfold web_update. now rewrite E.
    + apply (map_no_match _ (field data "mac_address")); [|assumption].
      intros hvac E. unfold heartbeat_update. now rewrite E.
  - intro Henv.
    destruct (accepted data) as [[|]|e] eqn:Hacc.
    + rewrite on_message_accepted by assumption.
      apply dispatch_outcome.
      now destruct (accepted_true data Hacc) as (_ & Hact & _).
    + unfold on_message. now rewrite Hacc.
    + apply accepted_throw in Hacc.
      destruct data; cbn in Hacc; try discriminate Hacc;
        cbn in Henv; discriminate Henv.
Qed.

(** A telemetry message for a device that is not subscribed. *)
Definition stray_heartbeat : value :=
  VObj [ ("message_type", VStr "StateUpdate");
         ("mid", VStr "Heartbeat");
         ("action", VObj [ ("power", VStr "off"); ("temp", VStr "70");
                           ("mode", VStr "auto"); ("fanspeed", VStr "auto") ]);
         ("lat_env_var", VObj [ ("temperature", VNum 80) ]);
         ("mac_address", VStr "11:22:33:44:55:66") ].

Lemma C8_no_match_no_mutation_witness :
  hvacs (state (on_message subscribed (Parsed stray_heartbeat)))
  = hvacs subscribed
  /\ outcome (on_message subscribed (Parsed stray_heartbeat)) = Normal tt.
Proof.
  destruct (C8_no_match_no_mutation subscribed stray_heartbeat)
    as [Hregistry Houtcome].
  - reflexivity.
  - split; [exact Hregistry|]. apply Houtcome. reflexivity.
Defined.

(** *** The state-change scenario *)

Definition scenario_action : value :=
  VObj [ ("power", VStr "off"); ("temp", VStr "70");
         ("mode", VStr "auto"); ("fanspeed", VStr "auto") ].

(** The message of the scenario, field for field. *)
Definition scenario_message : value :=
  VObj [ ("message_type", VStr "x");
         ("mid", VStr "WEB");
         ("action", scenario_action);
         ("mac_address", VStr "AA:BB:CC:DD:EE:FF") ].

(** The same message with ambient-temperature data added, as in the
    inbound message schema. *)
Definition scenario_message_with (env : value) : value :=
  VObj [ ("message_type", VStr "x");
         ("mid", VStr "WEB");
         ("action", scenario_action);
         ("lat_env_var", env);
         ("mac_address", VStr "AA:BB:CC:DD:EE:FF") ].

(** What the scenario does to one record. *)
Definition scenario_update (hvac : CieloHVAC.t) : CieloHVAC.t :=
  if String.eqb "AA:BB:CC:DD:EE:FF" (getMacAddress hvac)
  then updateState hvac (VStr "off") (VStr "70") (VStr "auto") (VStr "auto")
  else hvac.

(** C2, counterexample.  On the subscribed connection, whose registry
    holds the unit "AA:BB:CC:DD:EE:FF" switched on, the handler throws a
    TypeError on the message of the scenario: the message has no
    [lat_env_var], and the handler reads [data.lat_env_var.temperature]
    before the [switch].  The record keeps its power "on" and no callback
    is called. *)
Lemma C2_scenario_message_raises :
  hvacs subscribed = [den]
  /\ getMacAddress den = "AA:BB:CC:DD:EE:FF"
  /\ getPower den = VStr "on"
  /\ commandCallback subscribed = CbFunction
  /\ on_message subscribed (Parsed scenario_message)
     = mk_step subscribed (Throw TypeError) [].
Proof. repeat split. Qed.

(** C2, amended.  When the message of the scenario also carries
    ambient-temperature data ([lat_env_var] neither missing nor null), the
    handler raises no error, calls the command callback once with the
    [action] object, and sets the power, temperature, mode and fan speed
    of every record "AA:BB:CC:DD:EE:FF" of the registry to "off", "70",
    "auto" and "auto", leaving the other records as they were. *)
Theorem C2_state_change_scenario (c : CieloAPIConnection.t) (env : value)
                                 (hvac : CieloHVAC.t) :
  nullish env = false ->
  commandCallback c = CbFunction ->
  In hvac (hvacs c) ->
  getMacAddress hvac = "AA:BB:CC:DD:EE:FF" ->
  let r := on_message c (Parsed (scenario_message_with env)) in
  outcome r = Normal tt
  /\ events r = [CommandCallback scenario_action]
  /\ hvacs (state r) = map scenario_update (hvacs c)
  /\ In (updateState hvac (VStr "off") (VStr "70") (VStr "auto")
                     (VStr "auto"))
        (hvacs (state r)).
Proof.
  intros Henv Hcb Hin Hmac. cbv zeta.
  rewrite on_message_accepted by (try reflexivity; exact Henv).
  change (field (scenario_message_with env) "mid") with (VStr "WEB").
  change (field (scenario_message_with env) "action") with scenario_action.
  change (field (scenario_message_with env) "mac_address")
    with (VStr "AA:BB:CC:DD:EE:FF").
  rewrite dispatch_web by reflexivity.
  cbn [outcome events state hvacs set_hvacs]. rewrite Hcb.
  assert (Hmap : map (web_update scenario_action (VStr "AA:BB:CC:DD:EE:FF"))
                     (hvacs c)
                 = map scenario_update (hvacs c))
    by (apply map_ext; intro h; reflexivity).
  rewrite Hmap.
  repeat split.
  replace (updateState hvac (VStr "off") (VStr "70") (VStr "auto")
                       (VStr "auto"))
    with (scenario_update hvac)
    by (unfold scenario_update; rewrite Hmac; reflexivity).
  now apply in_map.
Qed.

Lemma C2_state_change_scenario_witness :
  let r := on_message subscribed
             (Parsed (scenario_message_with
                        (VObj [ ("temperature", VNum 74) ]))) in
  outcome r = Normal tt
  /\ events r = [CommandCallback scenario_action]
  /\ hvacs (state r) = map scenario_update (hvacs subscribed)
  /\ In (updateState den (VStr "off") (VStr "70") (VStr "auto")
                     (VStr "auto"))
        (hvacs (state r)).
Proof.
  apply (C2_state_change_scenario subscribed
           (VObj [ ("temperature", VNum 74) ]) den).
  - reflexivity.
  - reflexivity.
  - simpl. left. reflexivity.
  - reflexivity.
Defined.

(** *** Notification callbacks *)

(** The guard, read backwards: an object with a non-empty string
    [message_type] and an object or array [action] passes it. *)
Lemma accepted_shape (fields : list (string * value)) (s : string) :
  assoc "message_type" fields = VStr s ->
  s <> "" ->
  truthy (assoc "action" fields) = true ->
  typeof (assoc "action" fields) = "object" ->
  accepted (VObj fields) = Normal true.
Proof.
  intros Hmt Hs Htruthy Htypeof. unfold accepted. cbn [get bind].
  rewrite Hmt. cbn [truthy typeof str_length].
  destruct (String.eqb_spec s "") as [->|_]; [contradiction|].
  destruct s as [|ch rest]; [contradiction|].
  cbn. rewrite Htruthy, Htypeof. reflexivity.
Qed.

(** A state-change message without [message_type], and a telemetry
    message without [action]. *)
Definition untagged_state_change : value :=
  VObj [ ("mid", VStr "WEB");
         ("action", scenario_action);
         ("lat_env_var", VObj [ ("temperature", VNum 74) ]);
         ("mac_address", VStr "AA:BB:CC:DD:EE:FF") ].

Definition bare_heartbeat : value :=
  VObj [ ("message_type", VStr "StateUpdate");
         ("mid", VStr "Heartbeat");
         ("lat_env_var", VObj [ ("temperature", VNum 74) ]);
         ("mac_address", VStr "AA:BB:CC:DD:EE:FF") ].

(** C10, counterexample.  Both messages have a recognised [mid] and reach
    a connection whose callbacks are all defined, and neither callback is
    called: the guard of the handler drops a message without a non-empty
    string [message_type] or without an [action] object before the
    [switch]. *)
Lemma C10_guard_drops_message :
  commandCallback subscribed = CbFunction
  /\ temperatureCallback subscribed = CbFunction
  /\ get untagged_state_change "mid" = Normal (VStr "WEB")
  /\ on_message subscribed (Parsed untagged_state_change)
     = mk_step subscribed (Normal tt) []
  /\ get bare_heartbeat "mid" = Normal (VStr "Heartbeat")
  /\ on_message subscribed (Parsed bare_heartbeat)
     = mk_step subscribed (Normal tt) [].
Proof. repeat split. Qed.

(** C10, amended.  For every inbound message that passes the guard of the
    handler ([message_type] a non-empty string, [action] an object) and
    carries ambient-temperature data ([lat_env_var] neither missing nor
    null), and whatever the registry holds: when [mid] is "WEB" and the
    command callback is defined, that callback is called exactly once,
    with the [action] object; when [mid] is "Heartbeat" and the
    temperature callback is defined, that callback is called exactly once,
    with [lat_env_var.temperature]. *)
Theorem C10_callback_once (c : CieloAPIConnection.t) (data : value) :
  accepted data = Normal true ->
  nullish (field data "lat_env_var") = false ->
  (get data "mid" = Normal (VStr "WEB") ->
   commandCallback c = CbFunction ->
   events (on_message c (Parsed data))
   = [CommandCallback (field data "action")])
  /\ (get data "mid" = Normal (VStr "Heartbeat") ->
      temperatureCallback c = CbFunction ->
      events (on_message c (Parsed data))
      = [TemperatureCallback
           (field (field data "lat_env_var") "temperature")]).
Proof.
  intros Hacc Henv.
  destruct (accepted_true data Hacc) as (_ & Hact & _).
  rewrite on_message_accepted by assumption.
  split; intros Hmid Hcb; apply get_mid_field in Hmid; rewrite Hmid.
  - rewrite dispatch_web by assumption. cbn [events]. now rewrite Hcb.
  - rewrite dispatch_heartbeat. cbn [events]. now rewrite Hcb.
Qed.

Lemma C10_callback_once_witness :
  events (on_message subscribed (Parsed stray_heartbeat))
  = [TemperatureCallback (VNum 80)]
  /\ events (on_message subscribed (Parsed state_change_for_den))
     = [CommandCallback (field state_change_for_den "action")].
Proof.
  split.
  - apply (proj2 (C10_callback_once subscribed stray_heartbeat
                    ltac:(reflexivity) ltac:(reflexivity)));
      reflexivity.
  - apply (proj1 (C10_callback_once subscribed state_change_for_den
                    ltac:(reflexivity) ltac:(reflexivity)));
      reflexivity.
Defined.

(** * Further properties of the connection layer *)

(** ** Login *)

(** Logging in from the raw answer of the login request.  The call
    rejects exactly when the answer has no [data.user], always with a
    TypeError (the request's own failure is swallowed by the [catch]) and
    without storing anything; with a [data.user] it resolves and stores
    that object's [sessionId], [userId] and [accessToken], whether or not
    they are there. *)
Theorem establishConnection_from_response (c : CieloAPIConnection.t)
                                          (response : option value) :
  establishConnection c (getAccessTokenAndSessionId response)
  = match response with
    | None => (c, Rejected TypeError)
    | Some responseJSON =>
        let user := field (field responseJSON "data") "user" in
        if nullish user then (c, Rejected TypeError)
        else (set_credentials c (field user "sessionId")
                              (field user "userId")
                              (field user "accessToken"),
              Resolved)
    end.
Proof.
  destruct response as [responseJSON|]; [|reflexivity].
  unfold getAccessTokenAndSessionId, field.
  destruct responseJSON as [| |b|n|s|items|fields]; try reflexivity.
  cbn [get bind].
  destruct (assoc "data" fields) as [| |b|n|s|items|fs]; try reflexivity.
  cbn [get].
  destruct (assoc "user" fs) as [| |b|n|s|items|us]; reflexivity.
Qed.

(** ** The guard of the message handler *)

(** The messages the guard lets through: [message_type] is a non-empty
    string and [action] is an object or an array. *)
Definition well_tagged (data : value) : bool :=
  match field data "message_type" with
  | VStr s => negb (String.eqb s "")
  | _ => false
  end
  && match field data "action" with
     | VObj _ | VArr _ => true
     | _ => false
     end.

Lemma accepted_spec (data : value) :
  accepted data
  = if nullish data then Throw TypeError else Normal (well_tagged data).
Proof.
  unfold accepted, well_tagged, field.
  destruct data as [| |b|n|s|items|fields]; try reflexivity.
  cbn [get bind nullish].
  destruct (assoc "message_type" fields) as [| |b|n|s|items|fs];
    try reflexivity.
  - destruct b; reflexivity.
  - cbn. destruct (n =? 0); reflexivity.
  - cbn [truthy typeof str_length].
    destruct s as [|ch rest]; [reflexivity|].
    cbn. destruct (assoc "action" fields) as [| |b|n|s|items|fs];
      cbn; try reflexivity.
    + destruct b; reflexivity.
    + destruct (n =? 0); reflexivity.
    + destruct (s =? "")%string; reflexivity.
Qed.

(** The handler raises an error in exactly three cases: the message is
    not JSON (SyntaxError); it is the JSON [null] (TypeError); it passes
    the guard and has no [lat_env_var], or a null one (TypeError). *)
Theorem on_message_raises (c : CieloAPIConnection.t) (message : parsed)
                          (e : exn) :
  outcome (on_message c message) = Throw e
  <-> (message = ParseError /\ e = SyntaxError)
      \/ (exists data,
            message = Parsed data /\ e = TypeError
            /\ (nullish data = true
                \/ (well_tagged data = true
                    /\ nullish (field data "lat_env_var") = true))).
Proof.
  destruct message as [|data].
  - cbn. split.
    + intro H. left. split; [reflexivity|]. now inversion H.
    + intros [[_ ->] | (data & Hm & _)]; [reflexivity|discriminate Hm].
  - split.
    + intro H. right. exists data. split; [reflexivity|].
      destruct (nullish data) eqn:Hnull.
      * unfold on_message in H. rewrite accepted_spec, Hnull in H.
        cbn in H. inversion H. split; [reflexivity|]. now left.
      * destruct (well_tagged data) eqn:Htag.
        -- assert (Hacc : accepted data = Normal true)
             by (rewrite accepted_spec, Hnull, Htag; reflexivity).
           destruct (nullish (field data "lat_env_var")) eqn:Henv.
           ++ rewrite on_message_without_env in H by assumption.
              cbn in H. inversion H. split; [reflexivity|]. now right.
           ++ rewrite on_message_accepted in H by assumption.
              rewrite dispatch_outcome in H; [discriminate H|].
              now destruct (accepted_true data Hacc) as (_ & Hact & _).
        -- unfold on_message in H. rewrite accepted_spec, Hnull, Htag in H.
           discriminate H.
    + intros [[Hm _] | (d & Hm & -> & Hcase)]; [discriminate Hm|].
      inversion Hm; subst d.
      destruct Hcase as [Hnull | [Htag Henv]].
      * unfold on_message. rewrite accepted_spec, Hnull. reflexivity.
      * assert (Hacc : accepted data = Normal true).
        { rewrite accepted_spec.
          destruct (nullish data) eqn:Hnull; [|now rewrite Htag].
          destruct data; cbn in Hnull; try discriminate Hnull;
            discriminate Htag. }
        now rewrite on_message_without_env by assumption.
Qed.

(** A message that fails the guard, or passes it with a [mid] that is
    neither "WEB" nor "Heartbeat", is ignored: nothing changes, nothing
    is called, nothing is raised. *)
Theorem on_message_ignored (c : CieloAPIConnection.t) (data : value) :
  nullish data = false ->
  well_tagged data = false
  \/ (nullish (field data "lat_env_var") = false
      /\ field data "mid" <> VStr "WEB"
      /\ field data "mid" <> VStr "Heartbeat") ->
  on_message c (Parsed data) = mk_step c (Normal tt) [].
Proof.
  intros Hnull Hcase.
  destruct (well_tagged data) eqn:Htag.
  - destruct Hcase as [Hfalse | (Henv & Hweb & Hbeat)];
      [discriminate Hfalse|].
    rewrite on_message_accepted
      by (try assumption; rewrite accepted_spec, Hnull, Htag; reflexivity).
    now apply dispatch_other.
  - unfold on_message. rewrite accepted_spec, Hnull, Htag. reflexivity.
Qed.

(** A message whose [mid] is the number 7, and one without an action. *)
Definition odd_discriminator : value :=
  VObj [ ("message_type", VStr "StateUpdate");
         ("mid", VNum 7);
         ("action", scenario_action);
         ("lat_env_var", VObj [ ("temperature", VNum 80) ]);
         ("mac_address", VStr "AA:BB:CC:DD:EE:FF") ].

Lemma on_message_ignored_witness :
  on_message subscribed (Parsed odd_discriminator)
  = mk_step subscribed (Normal tt) []
  /\ on_message subscribed (Parsed bare_heartbeat)
     = mk_step subscribed (Normal tt) [].
Proof.
  split.
  - apply (on_message_ignored subscribed odd_discriminator).
    + reflexivity.
    + right. repeat split; discriminate.
  - apply (on_message_ignored subscribed bare_heartbeat).
    + reflexivity.
    + left. reflexivity.
Defined.

(** ** What a notification does to the registry *)

(** A state-change notification (it passes the guard, carries
    [lat_env_var], and its [mid] is "WEB") raises nothing and overwrites
    power, temperature, mode and fan speed of every record whose
    identifier is the message's [mac_address] with the four fields of
    [action], present or not; every other record, and every other
    field, stays as it was. *)
Theorem state_change_applied (c : CieloAPIConnection.t) (data : value) :
  well_tagged data = true ->
  nullish (field data "lat_env_var") = false ->
  field data "mid" = VStr "WEB" ->
  outcome (on_message c (Parsed data)) = Normal tt
  /\ hvacs (state (on_message c (Parsed data)))
     = map (fun hvac =>
              if matches data hvac
              then updateState hvac
                     (field (field data "action") "power")
                     (field (field data "action") "temp")
                     (field (field data "action") "mode")
                     (field (field data "action") "fanspeed")
              else hvac)
           (hvacs c).
Proof.
  intros Htag Henv Hmid.
  assert (Hacc : accepted data = Normal true).
  { rewrite accepted_spec.
    destruct (nullish data) eqn:Hnull; [|now rewrite Htag].
    destruct data; cbn in Hnull; try discriminate Hnull;
      discriminate Htag. }
  destruct (accepted_true data Hacc) as (_ & Hact & _).
  rewrite on_message_accepted by assumption. rewrite Hmid.
  rewrite dispatch_web by assumption. split; reflexivity.
Qed.

Lemma state_change_applied_witness :
  outcome (on_message subscribed (Parsed state_change_for_den)) = Normal tt
  /\ hvacs (state (on_message subscribed (Parsed state_change_for_den)))
     = [ updateState den (VStr "off") (VStr "70") (VStr "auto")
                     (VStr "auto") ].
Proof.
  apply (state_change_applied subscribed state_change_for_den);
    reflexivity.
Defined.

(** A telemetry notification (it passes the guard, carries [lat_env_var],
    and its [mid] is "Heartbeat") raises nothing and overwrites the room
    temperature of every record whose identifier is the message's
    [mac_address] with [lat_env_var.temperature]; every other record, and
    every other field, stays as it was. *)
Theorem heartbeat_applied (c : CieloAPIConnection.t) (data : value) :
  well_tagged data = true ->
  nullish (field data "lat_env_var") = false ->
  field data "mid" = VStr "Heartbeat" ->
  outcome (on_message c (Parsed data)) = Normal tt
  /\ hvacs (state (on_message c (Parsed data)))
     = map (fun hvac =>
              if matches data hvac
              then updateRoomTemperature hvac
                     (field (field data "lat_env_var") "temperature")
              else hvac)
           (hvacs c).
Proof.
  intros Htag Henv Hmid.
  assert (Hacc : accepted data = Normal true).
  { rewrite accepted_spec.
    destruct (nullish data) eqn:Hnull; [|now rewrite Htag].
    destruct data; cbn in Hnull; try discriminate Hnull;
      discriminate Htag. }
  rewrite on_message_accepted by assumption. rewrite Hmid.
  rewrite dispatch_heartbeat. split; reflexivity.
Qed.

Lemma heartbeat_applied_witness :
  outcome (on_message subscribed (Parsed heartbeat_for_den)) = Normal tt
  /\ hvacs (state (on_message subscribed (Parsed heartbeat_for_den)))
     = [ updateRoomTemperature den (VNum 80) ].
Proof.
  apply (heartbeat_applied subscribed heartbeat_for_den); reflexivity.
Defined.

(** The handler writes the registry and nothing else of the connection. *)
Lemma on_message_state (c : CieloAPIConnection.t) (message : parsed) :
  state (on_message c message)
  = set_hvacs c (hvacs (state (on_message c message))).
Proof.
  assert (Hc : c = set_hvacs c (hvacs c)) by (destruct c; reflexivity).
  unfold on_message.
  destruct message as [|data]; [exact Hc|].
  destruct (accepted data) as [[|]|e]; try exact Hc.
  destruct (read_fields data) as [[[[type status] roomTemp] thisMac]|e];
    [|exact Hc].
  unfold dispatch.
  destruct (strict_eq_string type "WEB").
  - destruct (forEach _ _) as [l [u|e]]; reflexivity.
  - destruct (strict_eq_string type "Heartbeat"); [|exact Hc].
    destruct (forEach _ _) as [l [u|e]]; reflexivity.
Qed.

Lemma web_update_mac (status thisMac : value) (hvac : CieloHVAC.t) :
  getMacAddress (web_update status thisMac hvac) = getMacAddress hvac.
Proof.
  unfold web_update.
  destruct (strict_eq_string thisMac (getMacAddress hvac)); reflexivity.
Qed.

Lemma heartbeat_update_mac (roomTemp thisMac : value) (hvac : CieloHVAC.t) :
  getMacAddress (heartbeat_update roomTemp thisMac hvac) = getMacAddress hvac.
Proof.
  unfold heartbeat_update.
  destruct (strict_eq_string thisMac (getMacAddress hvac)); reflexivity.
Qed.

Lemma well_tagged_accepted (data : value) :
  well_tagged data = true -> accepted data = Normal true.
Proof.
  intro Htag. rewrite accepted_spec.
  destruct (nullish data) eqn:Hnull; [|now rewrite Htag].
  destruct data; cbn in Hnull; try discriminate Hnull; discriminate Htag.
Qed.

Lemma on_message_web_hvacs (c : CieloAPIConnection.t) (data : value) :
  well_tagged data = true ->
  nullish (field data "lat_env_var") = false ->
  field data "mid" = VStr "WEB" ->
  hvacs (state (on_message c (Parsed data)))
  = map (web_update (field data "action") (field data "mac_address"))
        (hvacs c).
Proof.
  intros Htag Henv Hmid.
  pose proof (well_tagged_accepted data Htag) as Hacc.
  destruct (accepted_true data Hacc) as (_ & Hact & _).
  rewrite on_message_accepted by assumption. rewrite Hmid.
  now rewrite dispatch_web by assumption.
Qed.

Lemma on_message_heartbeat_hvacs (c : CieloAPIConnection.t) (data : value) :
  well_tagged data = true ->
  nullish (field data "lat_env_var") = false ->
  field data "mid" = VStr "Heartbeat" ->
  hvacs (state (on_message c (Parsed data)))
  = map (heartbeat_update (field (field data "lat_env_var") "temperature")
                          (field data "mac_address"))
        (hvacs c).
Proof.
  intros Htag Henv Hmid.
  pose proof (well_tagged_accepted data Htag) as Hacc.
  rewrite on_message_accepted by assumption. rewrite Hmid.
  now rewrite dispatch_heartbeat.
Qed.

(** Last write wins.  Of two state-change notifications for the same
    device handled one after the other, only the second shows in the
    registry: the registry is the one the second alone would have
    left. *)
Theorem state_change_last_write_wins (c : CieloAPIConnection.t)
                                     (first second : value) :
  well_tagged first = true ->
  nullish (field first "lat_env_var") = false ->
  field first "mid" = VStr "WEB" ->
  well_tagged second = true ->
  nullish (field second "lat_env_var") = false ->
  field second "mid" = VStr "WEB" ->
  field first "mac_address" = field second "mac_address" ->
  hvacs (state (on_message (state (on_message c (Parsed first)))
                           (Parsed second)))
  = hvacs (state (on_message c (Parsed second))).
Proof.
  intros Ht1 He1 Hm1 Ht2 He2 Hm2 Hmac.
  rewrite !on_message_web_hvacs by assumption.
  rewrite map_map. apply map_ext. intro hvac. rewrite Hmac.
  unfold web_update at 1. rewrite web_update_mac.
  unfold web_update.
  destruct (strict_eq_string (field second "mac_address")
                             (getMacAddress hvac)); reflexivity.
Qed.

(** An earlier state change for [den]: switched on, heating at 66. *)
Definition earlier_state_change : value :=
  VObj [ ("message_type", VStr "StateUpdate");
         ("mid", VStr "WEB");
         ("action", VObj [ ("power", VStr "on"); ("temp", VStr "66");
                           ("mode", VStr "heat"); ("fanspeed", VStr "high") ]);
         ("lat_env_var", VObj [ ("temperature", VNum 71) ]);
         ("mac_address", VStr "AA:BB:CC:DD:EE:FF") ].

Lemma state_change_last_write_wins_witness :
  hvacs (state (on_message
                  (state (on_message subscribed (Parsed earlier_state_change)))
                  (Parsed state_change_for_den)))
  = hvacs (state (on_message subscribed (Parsed state_change_for_den))).
Proof.
  apply (state_change_last_write_wins subscribed earlier_state_change
           state_change_for_den); reflexivity.
Defined.

(** The two kinds of notification do not interfere: a state change and a
    telemetry message, for the same device or for different ones, leave
    the same registry in either order. *)
Theorem state_change_heartbeat_commute (c : CieloAPIConnection.t)
                                       (change beat : value) :
  well_tagged change = true ->
  nullish (field change "lat_env_var") = false ->
  field change "mid" = VStr "WEB" ->
  well_tagged beat = true ->
  nullish (field beat "lat_env_var") = false ->
  field beat "mid" = VStr "Heartbeat" ->
  hvacs (state (on_message (state (on_message c (Parsed change)))
                           (Parsed beat)))
  = hvacs (state (on_message (state (on_message c (Parsed beat)))
                             (Parsed change))).
Proof.
  intros Ht1 He1 Hm1 Ht2 He2 Hm2.
  rewrite (on_message_heartbeat_hvacs (state (on_message c (Parsed change)))
             beat) by assumption.
  rewrite (on_message_web_hvacs (state (on_message c (Parsed beat))) change)
    by assumption.
  rewrite (on_message_web_hvacs c change) by assumption.
  rewrite (on_message_heartbeat_hvacs c beat) by assumption.
  rewrite !map_map. apply map_ext. intro hvac.
  unfold web_update, heartbeat_update, getMacAddress.
  destruct (strict_eq_string (field beat "mac_address") (macAddress hvac))
    eqn:Ebeat;
    destruct (strict_eq_string (field change "mac_address")
                               (macAddress hvac)) eqn:Echange;
    cbn [macAddress updateState updateRoomTemperature];
    rewrite ?Ebeat, ?Echange; reflexivity.
Qed.

Lemma state_change_heartbeat_commute_witness :
  hvacs (state (on_message
                  (state (on_message subscribed (Parsed state_change_for_den)))
                  (Parsed heartbeat_for_den)))
  = hvacs (state (on_message
                    (state (on_message subscribed (Parsed heartbeat_for_den)))
                    (Parsed state_change_for_den))).
Proof.
  apply (state_change_heartbeat_commute subscribed state_change_for_den
           heartbeat_for_den); reflexivity.
Defined.

(** ** Commands *)

(** An attribute other than "mode" and "temp" (any value at all, a string
    or not) changes nothing in the control vector: the payload carries
    the unit's current state, and the attribute and the value travel in
    [actionType] and [actionValue] only. *)
Theorem unrecognised_attribute_vector (c : CieloAPIConnection.t)
    (hvac : CieloHVAC.t) (a v : value) (now : Z) :
  a <> VStr "mode" ->
  a <> VStr "temp" ->
  control_vector (fst (buildCommandPayload c hvac a v now))
  = Normal (getPower hvac, getTemperature hvac, getMode hvac,
            getFanSpeed hvac)
  /\ get (fst (buildCommandPayload c hvac a v now)) "actionType" = Normal a
  /\ get (fst (buildCommandPayload c hvac a v now)) "actionValue" = Normal v.
Proof.
  intros Hmode Htemp.
  assert (Em : strict_eq_string a "mode" = false).
  { destruct (strict_eq_string a "mode") eqn:E; [|reflexivity].
    apply strict_eq_string_true in E. contradiction. }
  assert (Et : strict_eq_string a "temp" = false).
  { destruct (strict_eq_string a "temp") eqn:E; [|reflexivity].
    apply strict_eq_string_true in E. contradiction. }
  unfold control_vector, buildCommandPayload, buildCommand.
  cbn. rewrite Em, Et. repeat split.
Qed.

Lemma unrecognised_attribute_vector_witness :
  control_vector (fst (buildCommandPayload subscribed den (VStr "turbo")
                                           (VStr "on") 1700000000123))
  = Normal (VStr "on", VStr "72", VStr "cool", VStr "low")
  /\ get (fst (buildCommandPayload subscribed den (VStr "turbo")
                                   (VStr "on") 1700000000123)) "actionType"
     = Normal (VStr "turbo")
  /\ get (fst (buildCommandPayload subscribed den (VStr "turbo")
                                   (VStr "on") 1700000000123)) "actionValue"
     = Normal (VStr "on").
Proof.
  apply (unrecognised_attribute_vector subscribed den (VStr "turbo")
           (VStr "on") 1700000000123); discriminate.
Defined.

(** [sendCommand] changes the command counter and nothing else. *)
Lemma sendCommand_after (c : CieloAPIConnection.t) (hvac : CieloHVAC.t)
    (a v : value) (now : Z) (globals : list string) (env : reaction) :
  after (sendCommand c hvac a v now globals env)
  = set_commandCount c
      (commandCount (after (sendCommand c hvac a v now globals env))).
Proof.
  assert (Hc : c = set_commandCount c (commandCount c))
    by (destruct c; reflexivity).
  unfold sendCommand.
  destruct (ws c) as [sock|]; [|exact Hc].
  destruct env as [e|when error|]; cbn; try reflexivity.
  destruct (send_callback globals error) as [p|e]; [reflexivity|].
  destruct when; reflexivity.
Qed.

(** A command never touches the registry, whatever becomes of it: the
    record of the unit is not updated by sending (only a later
    state-change notification does that), and none of the caller's
    callbacks is called. *)
Theorem sendCommand_leaves_registry (c : CieloAPIConnection.t)
    (hvac : CieloHVAC.t) (a v : value) (now : Z) (globals : list string)
    (env : reaction) :
  hvacs (after (sendCommand c hvac a v now globals env)) = hvacs c
  /\ ws (after (sendCommand c hvac a v now globals env)) = ws c
  /\ sessionID (after (sendCommand c hvac a v now globals env))
     = sessionID c
  /\ accessToken (after (sendCommand c hvac a v now globals env))
     = accessToken c
  /\ notified (sendCommand c hvac a v now globals env) = [].
Proof.
  rewrite sendCommand_after. cbn. repeat split.
  unfold sendCommand.
  destruct (ws c) as [sock|]; [|reflexivity].
  destruct env as [e|when error|]; cbn; try reflexivity.
  destruct (send_callback globals error) as [p|e]; [reflexivity|].
  destruct when; reflexivity.
Qed.

(** The promise of [sendCommand] resolves in one case only: a socket
    exists and the transport calls the callback back without an error.
    No acknowledgement from the backend is waited for. *)
Theorem sendCommand_resolves_iff (c : CieloAPIConnection.t)
    (hvac : CieloHVAC.t) (a v : value) (now : Z) (globals : list string)
    (env : reaction) :
  returned (sendCommand c hvac a v now globals env) = Resolved
  <-> ws c <> None
      /\ exists when error,
           env = SendCallback when error /\ truthy error = false.
Proof.
  unfold sendCommand. split.
  - destruct (ws c) as [sock|]; [|discriminate].
    destruct env as [e|when error|]; cbn; try discriminate.
    intro H. split; [discriminate|]. exists when, error.
    split; [reflexivity|].
    unfold send_callback in H.
    destruct (truthy error); [|reflexivity].
    destruct (resolve globals "log"); cbn in H;
      [discriminate H | destruct when; discriminate H].
  - intros (Hws & when & error & -> & Herr).
    destruct (ws c) as [sock|]; [|contradiction].
    cbn. unfold send_callback. rewrite Herr. reflexivity.
Qed.

(** ** Runs of the connection *)

(** What can happen to a connection between two discoveries: a command
    is sent, a message arrives, the socket closes, the socket reports an
    error. *)
Inductive occurrence : Type :=
| Sends (hvac : CieloHVAC.t) (a v : value) (now : Z)
        (globals : list string) (env : reaction)
| Receives (message : parsed)
| Closes
| Fails (e : exn).

Definition occur (c : CieloAPIConnection.t) (o : occurrence)
  : CieloAPIConnection.t :=
  match o with
  | Sends hvac a v now globals env =>
      after (sendCommand c hvac a v now globals env)
  | Receives message => state (on_message c message)
  | Closes => state (on_close c)
  | Fails e => state (on_error c e)
  end.

Definition run (c : CieloAPIConnection.t) (os : list occurrence)
  : CieloAPIConnection.t :=
  fold_left occur os c.

Definition is_send (o : occurrence) : bool :=
  match o with
  | Sends _ _ _ _ _ _ => true
  | _ => false
  end.

Lemma call_errorCallback_state (c : CieloAPIConnection.t) (e : exn) :
  state (call_errorCallback c e) = c.
Proof. unfold call_errorCallback. destruct (errorCallback c); reflexivity. Qed.

(** Nothing that happens on an existing socket replaces it or the
    credentials: closing and errors do not take the socket away, and no
    new one is made. *)
Lemma occur_keeps_session (c : CieloAPIConnection.t) (o : occurrence) :
  ws (occur c o) = ws c
  /\ sessionID (occur c o) = sessionID c
  /\ accessToken (occur c o) = accessToken c.
Proof.
  destruct o as [hvac a v now globals env|message| |e]; cbn [occur].
  - rewrite sendCommand_after. now repeat split.
  - rewrite on_message_state. now repeat split.
  - unfold on_close. rewrite call_errorCallback_state. now repeat split.
  - unfold on_error. rewrite call_errorCallback_state. now repeat split.
Qed.

Lemma run_keeps_session (os : list occurrence) (c : CieloAPIConnection.t) :
  ws (run c os) = ws c
  /\ sessionID (run c os) = sessionID c
  /\ accessToken (run c os) = accessToken c.
Proof.
  revert c. induction os as [|o os IH]; intro c; [now repeat split|].
  cbn [run fold_left].
  destruct (IH (occur c o)) as (Hws & Hsid & Htok).
  destruct (occur_keeps_session c o) as (Hws' & Hsid' & Htok').
  unfold run in *. repeat split; congruence.
Qed.

Lemma occur_counter (c : CieloAPIConnection.t) (o : occurrence) :
  ws c <> None ->
  commandCount (occur c o)
  = commandCount c + (if is_send o then 1 else 0).
Proof.
  intro Hws.
  destruct o as [hvac a v now globals env|message| |e]; cbn [occur is_send].
  - rewrite sendCommand_counter. destruct (ws c); [reflexivity|contradiction].
  - rewrite on_message_state. cbn. lia.
  - unfold on_close. rewrite call_errorCallback_state. lia.
  - unfold on_error. rewrite call_errorCallback_state. lia.
Qed.

(** The counter counts the commands.  On a connection with a socket,
    after any run of commands, messages, closings and errors, whatever
    the transport did with each command, the counter has grown by the
    number of [sendCommand] calls in the run. *)
Theorem counter_counts_commands (c : CieloAPIConnection.t)
                                (os : list occurrence) :
  ws c <> None ->
  commandCount (run c os)
  = commandCount c + Z.of_nat (List.length (filter is_send os)).
Proof.
  revert c. induction os as [|o os IH]; intros c Hws.
  - cbn. lia.
  - cbn [run fold_left]. fold (run (occur c o) os).
    rewrite IH
      by (destruct (occur_keeps_session c o) as (-> & _); exact Hws).
    rewrite occur_counter by assumption.
    cbn [filter]. destruct (is_send o); cbn [List.length]; lia.
Qed.

(** A run on the subscribed connection: two commands, one of them failed
    by the transport, around a message and a closing of the socket. *)
Definition busy_run : list occurrence :=
  [ Sends den (VStr "power") (VStr "off") 1700000000123 []
          (SendCallback Async VUndefined);
    Receives (Parsed state_change_for_den);
    Closes;
    Sends den (VStr "temp") (VStr "68") 1700000009123 []
          (SendCallback Async write_error) ].

Lemma counter_counts_commands_witness :
  commandCount (run subscribed busy_run) = 2.
Proof.
  apply (counter_counts_commands subscribed busy_run). discriminate.
Defined.

(** The identity of a record: what the constructor sets. *)
Definition identity (hvac : CieloHVAC.t) : string * value * value * value :=
  (getMacAddress hvac, getDeviceName hvac, getApplianceID hvac,
   getFwVersion hvac).

Lemma occur_identities (c : CieloAPIConnection.t) (o : occurrence) :
  map identity (hvacs (occur c o)) = map identity (hvacs c).
Proof.
  destruct o as [hvac a v now globals env|message| |e]; cbn [occur].
  - now rewrite sendCommand_after.
  - destruct message as [|data]; [reflexivity|].
    destruct (hvacs_after_message c data)
      as [Heq | [(_ & _ & Heq) | (_ & _ & Heq)]]; rewrite Heq;
      [reflexivity| |]; rewrite map_map; apply map_ext; intro hvac.
    + unfold web_update. now destruct (strict_eq_string _ _).
    + unfold heartbeat_update. now destruct (strict_eq_string _ _).
  - unfold on_close. now rewrite call_errorCallback_state.
  - unfold on_error. now rewrite call_errorCallback_state.
Qed.

(** Between two discoveries the registry keeps its records: no run of
    commands, messages, closings and errors adds a record, removes one,
    reorders them, or changes an identifier, a name, an appliance id or a
    firmware version. *)
Theorem run_keeps_identities (c : CieloAPIConnection.t)
                             (os : list occurrence) :
  map identity (hvacs (run c os)) = map identity (hvacs c).
Proof.
  revert c. induction os as [|o os IH]; intro c; [reflexivity|].
  cbn [run fold_left]. fold (run (occur c o) os).
  rewrite IH. apply occur_identities.
Qed.

(** ** Discovery *)

(** The device is one of those asked for. *)
Definition requested (macAddresses : list string) (device : value) : bool :=
  includes macAddresses (field device "macAddress").

(** The record that discovery makes of a listed device. *)
Definition record_of (device : value) : CieloHVAC.t :=
  updateRoomTemperature
    (updateState
       (CieloHVAC.new
          (match field device "macAddress" with VStr s => s | _ => "" end)
          (field device "deviceName") (field device "applianceId")
          (field device "fwVersion"))
       (field (field device "latestAction") "power")
       (field (field device "latestAction") "temp")
       (field (field device "latestAction") "mode")
       (field (field device "latestAction") "fanspeed"))
    (field (field device "latEnv") "temp").

(** An entry of the list that the loop gets through: it is not [null],
    and if it is asked for it has a [latestAction] and a [latEnv]. *)
Definition complete (macAddresses : list string) (device : value) : bool :=
  negb (nullish device)
  && (negb (requested macAddresses device)
      || (negb (nullish (field device "latestAction"))
          && negb (nullish (field device "latEnv")))).

Lemma includes_not_string (macAddresses : list string) (v : value) :
  (forall s, v <> VStr s) -> includes macAddresses v = false.
Proof.
  intro Hv. unfold includes.
  induction macAddresses as [|m rest IH]; [reflexivity|].
  cbn. rewrite IH. destruct v; try reflexivity.
  now contradiction (Hv s).
Qed.

Lemma extract_spec (macAddresses : list string) (device : value) :
  extract macAddresses device
  = if complete macAddresses device
    then Normal (if requested macAddresses device
                 then Some (record_of device) else None)
    else Throw TypeError.
Proof.
  unfold extract, complete, requested, record_of, field.
  destruct device as [| |b|n|s|items|fields]; try reflexivity;
    cbn [get bind nullish negb andb];
    try (rewrite includes_not_string by discriminate; reflexivity).
  destruct (assoc "macAddress" fields) as [| |b|n|s|items|fs];
    try (rewrite includes_not_string by discriminate; reflexivity).
  destruct (includes macAddresses (VStr s)); [|reflexivity].
  cbn [negb orb].
  destruct (assoc "latestAction" fields) as [| |b|n|t|items|fs];
    try reflexivity;
    destruct (assoc "latEnv" fields) as [| |b'|n'|t'|items'|fs'];
    reflexivity.
Qed.

Lemma extract_all_prefix (macAddresses : list string)
    (pre rest : list value) (acc : list CieloHVAC.t) :
  forallb (complete macAddresses) pre = true ->
  extract_all macAddresses (pre ++ rest) acc
  = extract_all macAddresses rest
      (acc ++ map record_of (filter (requested macAddresses) pre)).
Proof.
  revert acc. induction pre as [|device pre IH]; intros acc Hall.
  - cbn. now rewrite app_nil_r.
  - cbn in Hall. apply andb_true_iff in Hall as [Hdevice Hpre].
    cbn [app extract_all filter]. rewrite extract_spec, Hdevice.
    destruct (requested macAddresses device).
    + rewrite IH by assumption. cbn [map]. now rewrite <- app_assoc.
    + now rewrite IH by assumption.
Qed.

Lemma field_defined (v : value) (k : string) :
  nullish (field v k) = false -> exists fields, v = VObj fields.
Proof.
  unfold field. destruct v; cbn; try discriminate. intros _. now eexists.
Qed.

(** The socket that [#connect] makes for a connection. *)
Definition socket_of (c : CieloAPIConnection.t) : WebSocket :=
  {| url_sessionId := sessionID c;
     url_token := accessToken c;
     payload_sessionId := agent c;
     payload_token := accessToken c |}.

Lemma subscribeToHVACs_prefix (c : CieloAPIConnection.t)
    (macAddresses : list string) (deviceInfo : value)
    (pre rest : list value) (opens : bool) :
  truthy (field deviceInfo "error") = false ->
  field (field deviceInfo "data") "listDevices" = VArr (pre ++ rest) ->
  forallb (complete macAddresses) pre = true ->
  subscribeToHVACs c macAddresses deviceInfo opens
  = let c0 := set_commandCount (set_hvacs c []) 0 in
    let (l, r) :=
      extract_all macAddresses rest
        (map record_of (filter (requested macAddresses) pre)) in
    match r with
    | Throw e => (set_hvacs c0 l, Rejected e)
    | Normal _ => connect (set_hvacs c0 l) opens
    end.
Proof.
  intros Herr Hlist Hpre.
  destruct (field_defined (field deviceInfo "data") "listDevices")
    as [dfields Hdata]; [now rewrite Hlist|].
  destruct (field_defined deviceInfo "data") as [ifields Hinfo];
    [now rewrite Hdata|].
  unfold subscribeToHVACs.
  rewrite !(get_field deviceInfo) by (subst deviceInfo; reflexivity).
  rewrite Herr. cbn [bind].
  rewrite (get_field (field deviceInfo "data"))
    by (rewrite Hdata; reflexivity).
  rewrite Hlist. cbn [bind iterate hvacs set_commandCount set_hvacs].
  rewrite extract_all_prefix by assumption. reflexivity.
Qed.





(** Discovery on a list it does not get through.  At the first entry
    that is [null], or asked for and without [latestAction] or [latEnv],
    the call rejects with a TypeError; the records made of the entries
    before it stay in the registry, the entries after it are not looked
    at, and no socket is made. *)
Theorem discovery_stops_at_incomplete_entry (c : CieloAPIConnection.t)
    (macAddresses : list string) (deviceInfo : value)
    (pre post : list value) (bad : value) (opens : bool) :
  truthy (field deviceInfo "error") = false ->
  field (field deviceInfo "data") "listDevices" = VArr (pre ++ bad :: post) ->
  forallb (complete macAddresses) pre = true ->
  complete macAddresses bad = false ->
  let r := subscribeToHVACs c macAddresses deviceInfo opens in
  snd r = Rejected TypeError
  /\ hvacs (fst r) = map record_of (filter (requested macAddresses) pre)
  /\ ws (fst r) = ws c.
Proof.
  intros Herr Hlist Hpre Hbad. cbv zeta.
  rewrite (subscribeToHVACs_prefix c macAddresses deviceInfo pre
             (bad :: post)) by assumption.
  cbn [extract_all]. rewrite extract_spec, Hbad. cbn. repeat split.
Qed.

(** A list with the unit [den] followed by a unit that is asked for and
    has no [latestAction]. *)
Definition broken_entry : value :=
  VObj [ ("macAddress", VStr "11:22:33:44:55:66");
         ("deviceName", VStr "Attic");
         ("applianceId", VNum 9);
         ("fwVersion", VStr "2.4.1");
         ("latEnv", VObj [ ("temp", VNum 81) ]) ].

Definition den_entry : value :=
  VObj [ ("macAddress", VStr "AA:BB:CC:DD:EE:FF");
         ("deviceName", VStr "Den");
         ("applianceId", VNum 7);
         ("fwVersion", VStr "2.4.1");
         ("latestAction",
          VObj [ ("power", VStr "on"); ("temp", VStr "72");
                 ("mode", VStr "cool"); ("fanspeed", VStr "low") ]);
         ("latEnv", VObj [ ("temp", VNum 74) ]) ].

Definition broken_list : value :=
  VObj [ ("data",
          VObj [ ("listDevices",
                  VArr [ den_entry; broken_entry; den_entry ]) ]) ].

Lemma discovery_stops_at_incomplete_entry_witness :
  let r := subscribeToHVACs logged_in
             ["AA:BB:CC:DD:EE:FF"; "11:22:33:44:55:66"] broken_list true in
  snd r = Rejected TypeError
  /\ hvacs (fst r) = [den]
  /\ ws (fst r) = None.
Proof.
  apply (discovery_stops_at_incomplete_entry logged_in
           ["AA:BB:CC:DD:EE:FF"; "11:22:33:44:55:66"] broken_list
           [den_entry] [den_entry] broken_entry true); reflexivity.
Defined.

Lemma includes_true (macAddresses : list string) (v : value) :
  includes macAddresses v = true ->
  exists s, v = VStr s /\ In s macAddresses.
Proof.
  unfold includes. intro H. apply existsb_exists in H as (m & Hin & Heq).
  apply strict_eq_string_true in Heq. now exists m.
Qed.

Lemma extract_all_requested (macAddresses : list string)
    (devices : list value) (acc : list CieloHVAC.t) :
  Forall (fun hvac => In (getMacAddress hvac) macAddresses) acc ->
  Forall (fun hvac => In (getMacAddress hvac) macAddresses)
         (fst (extract_all macAddresses devices acc)).
Proof.
  revert acc. induction devices as [|device rest IH]; intros acc Hacc;
    [exact Hacc|].
  cbn [extract_all]. rewrite extract_spec.
  destruct (complete macAddresses device); [|exact Hacc].
  destruct (requested macAddresses device) eqn:Hreq; [|now apply IH].
  apply IH. apply Forall_app. split; [exact Hacc|].
  constructor; [|constructor].
  apply includes_true in Hreq as (s & Hs & Hin).
  unfold record_of. rewrite Hs. exact Hin.
Qed.

(** Discovery never subscribes to a device that was not asked for:
    whatever the backend answers, and whether the call resolves, stays
    pending or rejects, every record of the registry it leaves has one of
    the identifiers given to the call. *)
Theorem discovery_only_requested (c : CieloAPIConnection.t)
    (macAddresses : list string) (deviceInfo : value) (opens : bool) :
  Forall (fun hvac => In (getMacAddress hvac) macAddresses)
         (hvacs (fst (subscribeToHVACs c macAddresses deviceInfo opens))).
Proof.
  unfold subscribeToHVACs.
  destruct (get deviceInfo "error") as [err|e]; [|constructor].
  destruct (truthy err); [constructor|].
  destruct (bind (get deviceInfo "data") _) as [devices|e]; [|constructor].
  pose proof (extract_all_requested macAddresses devices [] (Forall_nil _))
    as Hall.
  cbn [hvacs set_commandCount set_hvacs].
  destruct (extract_all macAddresses devices []) as [l [u|e]]; exact Hall.
Qed.





(** ** A session from login to commands *)

(** What neither a command nor a message writes. *)
Definition settings (c : CieloAPIConnection.t) :=
  (sessionID c, userID c, accessToken c, agent c, ws c,
   commandCallback c, temperatureCallback c, errorCallback c).

Lemma occur_settings (c : CieloAPIConnection.t) (o : occurrence) :
  settings (occur c o) = settings c.
Proof.
  destruct o as [hvac a v now globals env|message| |e]; cbn [occur].
  - now rewrite sendCommand_after.
  - now rewrite on_message_state.
  - unfold on_close. now rewrite call_errorCallback_state.
  - unfold on_error. now rewrite call_errorCallback_state.
Qed.

Lemma run_settings (os : list occurrence) (c : CieloAPIConnection.t) :
  settings (run c os) = settings c.
Proof.
  revert c. induction os as [|o os IH]; intro c; [reflexivity|].
  cbn [run fold_left]. fold (run (occur c o) os).
  rewrite IH. apply occur_settings.
Qed.

Lemma run_shape (os : list occurrence) (c : CieloAPIConnection.t) :
  run c os
  = set_commandCount (set_hvacs c (hvacs (run c os)))
                     (commandCount (run c os)).
Proof.
  pose proof (run_settings os c) as H.
  destruct (run c os), c. unfold settings in H. cbn in H.
  inversion H. reflexivity.
Qed.

(** A discovery starts afresh.  Whatever commands, messages, closings and
    errors came before it, a discovery leaves the connection, and settles
    its promise, as it would have without them: the registry is rebuilt
    from the backend's answer alone and the counter restarts. *)
Theorem discovery_forgets_the_past (c : CieloAPIConnection.t)
    (os : list occurrence) (macAddresses : list string)
    (deviceInfo : value) (opens : bool) :
  subscribeToHVACs (run c os) macAddresses deviceInfo opens
  = subscribeToHVACs c macAddresses deviceInfo opens.
Proof. rewrite run_shape. reflexivity. Qed.

Definition rejected (p : promise) : bool :=
  match p with
  | Rejected _ => true
  | _ => false
  end.

Lemma establishConnection_user (c : CieloAPIConnection.t) (user : value) :
  nullish user = false ->
  establishConnection c user
  = (set_credentials c (field user "sessionId") (field user "userId")
                     (field user "accessToken"),
     Resolved).
Proof.
  intro Huser. unfold establishConnection.
  now rewrite !(get_field user) by assumption.
Qed.

Lemma subscribeToHVACs_socket (c : CieloAPIConnection.t)
    (macAddresses : list string) (deviceInfo : value) (opens : bool) :
  rejected (snd (subscribeToHVACs c macAddresses deviceInfo opens)) = false ->
  settings (fst (subscribeToHVACs c macAddresses deviceInfo opens))
  = (sessionID c, userID c, accessToken c, agent c, Some (socket_of c),
     commandCallback c, temperatureCallback c, errorCallback c).
Proof.
  unfold subscribeToHVACs.
  destruct (get deviceInfo "error") as [err|e]; [|discriminate].
  destruct (truthy err); [discriminate|].
  destruct (bind (get deviceInfo "data") _) as [devices|e]; [|discriminate].
  destruct (extract_all macAddresses devices _) as [l [u|e]];
    [|discriminate].
  reflexivity.
Qed.

(** The credentials of a session.  After a login that stored the object
    [user], and a discovery that was not rejected, the socket carries
    [user.sessionId] and [user.accessToken] in its URL, and so does, as
    [mid] and [token], every command payload built afterwards, whatever
    happened on the connection in between: nothing refreshes or drops the
    credentials. *)
Theorem session_credentials (c : CieloAPIConnection.t) (user : value)
    (macAddresses : list string) (deviceInfo : value) (opens : bool)
    (os : list occurrence) (hvac : CieloHVAC.t) (a v : value) (now : Z) :
  nullish user = false ->
  let discovery :=
    subscribeToHVACs (fst (establishConnection c user)) macAddresses
                     deviceInfo opens in
  rejected (snd discovery) = false ->
  let later := run (fst discovery) os in
  (exists socket,
      ws later = Some socket
      /\ url_sessionId socket = field user "sessionId"
      /\ url_token socket = field user "accessToken")
  /\ get (fst (buildCommandPayload later hvac a v now)) "mid"
     = Normal (field user "sessionId")
  /\ get (fst (buildCommandPayload later hvac a v now)) "token"
     = Normal (field user "accessToken").
Proof.
  intros Huser discovery Hok later.
  pose proof (run_settings os (fst discovery)) as Hrun.
  fold later in Hrun.
  unfold discovery in Hrun.
  rewrite subscribeToHVACs_socket in Hrun by exact Hok.
  rewrite establishConnection_user in Hrun by assumption.
  unfold settings in Hrun.
  injection Hrun as Hsid _ Htok _ Hws _ _ _.
  split.
  - eexists. split; [exact Hws|]. split; reflexivity.
  - cbn. rewrite Hsid, Htok. split; reflexivity.
Qed.

Lemma session_credentials_witness :
  let later := run subscribed busy_run in
  (exists socket,
      ws later = Some socket
      /\ url_sessionId socket = VStr "S-1"
      /\ url_token socket = VStr "T-1")
  /\ get (fst (buildCommandPayload later den (VStr "mode") (VStr "heat")
                                   1700000020000)) "mid"
     = Normal (VStr "S-1")
  /\ get (fst (buildCommandPayload later den (VStr "mode") (VStr "heat")
                                   1700000020000)) "token"
     = Normal (VStr "T-1").
Proof.
  apply (session_credentials
           (CieloAPIConnection.new CbFunction CbFunction CbFunction)
           (VObj [ ("sessionId", VStr "S-1"); ("userId", VStr "U-1");
                   ("accessToken", VStr "T-1") ])
           ["AA:BB:CC:DD:EE:FF"] device_list true busy_run den
           (VStr "mode") (VStr "heat") 1700000020000); reflexivity.
Defined.

(** ** Callbacks of the message handler *)

(** One message, at most one call.  Handling a message calls at most one
    of the caller's callbacks, once, and never the error callback: the
    command callback, with [action], only for a "WEB" message that was
    handled without error; the temperature callback, with
    [lat_env_var.temperature], only for a "Heartbeat" message that was
    handled without error. *)
Theorem on_message_calls (c : CieloAPIConnection.t) (message : parsed) :
  match events (on_message c message) with
  | [] => True
  | [CommandCallback status] =>
      exists data,
        message = Parsed data
        /\ field data "mid" = VStr "WEB"
        /\ status = field data "action"
        /\ commandCallback c = CbFunction
        /\ outcome (on_message c message) = Normal tt
  | [TemperatureCallback roomTemp] =>
      exists data,
        message = Parsed data
        /\ field data "mid" = VStr "Heartbeat"
        /\ roomTemp = field (field data "lat_env_var") "temperature"
        /\ temperatureCallback c = CbFunction
        /\ outcome (on_message c message) = Normal tt
  | _ => False
  end.
Proof.
  destruct message as [|data]; [exact I|].
  destruct (accepted data) as [[|]|e] eqn:Hacc;
    [|unfold on_message; rewrite Hacc; exact I
     |unfold on_message; rewrite Hacc; exact I].
  destruct (accepted_true data Hacc) as (_ & Hact & _).
  destruct (nullish (field data "lat_env_var")) eqn:Henv;
    [rewrite on_message_without_env by assumption; exact I|].
  rewrite on_message_accepted by assumption.
  destruct (strict_eq_string (field data "mid") "WEB") eqn:E1.
  - apply strict_eq_string_true in E1. rewrite E1.
    rewrite dispatch_web by assumption. cbn [events outcome].
    destruct (commandCallback c) eqn:Hcb; cbn; [exact I|].
    exists data. now repeat split.
  - destruct (strict_eq_string (field data "mid") "Heartbeat") eqn:E2.
    + apply strict_eq_string_true in E2. rewrite E2.
      rewrite dispatch_heartbeat. cbn [events outcome].
      destruct (temperatureCallback c) eqn:Hcb; cbn; [exact I|].
      exists data. now repeat split.
    + unfold dispatch. rewrite E1, E2. exact I.
Qed.

Lemma on_message_raises_witness :
  outcome (on_message subscribed (Parsed stray_state_change))
  = Throw TypeError
  /\ outcome (on_message subscribed ParseError) = Throw SyntaxError.
Proof.
  split.
  - apply (proj2 (on_message_raises subscribed (Parsed stray_state_change)
                    TypeError)).
    right. exists stray_state_change.
    split; [reflexivity|]. split; [reflexivity|].
    right. split; reflexivity.
  - apply (proj2 (on_message_raises subscribed ParseError SyntaxError)).
    left. split; reflexivity.
Defined.

Lemma sendCommand_resolves_iff_witness :
  returned (sendCommand subscribed den (VStr "temp") (VStr "68")
                        1700000000123 [] (SendCallback Async VUndefined))
  = Resolved.
Proof.
  apply (proj2 (sendCommand_resolves_iff subscribed den (VStr "temp")
                  (VStr "68") 1700000000123 []
                  (SendCallback Async VUndefined))).
  split; [discriminate|].
  exists Async, VUndefined. split; reflexivity.
Defined.
